(** * Chart dependency management of helmfile: [state/chart_dependency.go]

    A shallow embedding of the dependency sets, the lock-file protocol of
    the dependency manager and the merge of locked versions into a
    [HelmState], followed by the properties the specification states about
    them.

    Conventions of the embedding:
    - a Go [string] and a Go [[]byte] are Rocq strings (sequences of bytes);
      a [[]byte] that may be [nil] is an [option string];
    - a Go [error] is an [option error], [None] being [nil];
    - a Go [map[string]T] is a [gmap string T];
    - a pointer into the Go heap is a location of the [world];
    - a function that performs I/O, touches the heap or may panic lives in
      the monad [M];
    - the calls to [logger.Debugf] are left out: they only print. *)

From Stdlib Require Import String Ascii DecimalString.
From stdpp Require Import gmap strings list fin_maps.

Open Scope string_scope.

(** ** Strings: the few functions of the Go library the code calls *)

Module GoStrings.

Definition nl : string := String "010"%char EmptyString.
Definition dquote : string := String "034"%char EmptyString.

(** [fmt.Sprintf("%d", n)] for a non-negative [int]. *)
Definition itoa (n : nat) : string := NilEmpty.string_of_uint (Nat.to_uint n).

(** [strings.Split(s, sep)] for a separator of one byte: the pieces of [s]
    between the occurrences of [sep]; [n] occurrences give [n + 1] pieces,
    some of which may be empty. *)
Fixpoint Split (s : string) (sep : ascii) : list string :=
  match s with
  | EmptyString => [EmptyString]
  | String c s' =>
      if Ascii.eqb c sep then EmptyString :: Split s' sep
      else match Split s' sep with
           | [] => [String c EmptyString]
           | p :: ps => String c p :: ps
           end
  end.

(** [strings.TrimSuffix(s, suffix)]: [s] without the trailing [suffix], or
    [s] itself when it does not end with [suffix]. *)
Fixpoint TrimSuffix (s suffix : string) : string :=
  if String.eqb s suffix then EmptyString
  else match s with
       | EmptyString => EmptyString
       | String c s' => String c (TrimSuffix s' suffix)
       end.

End GoStrings.
Import GoStrings.

(** ** Errors and panics *)

Inductive Errno := ENOENT | EACCES | EIO.

(** The two kinds of [error] values that reach this code: the [*os.PathError]
    of a failed file operation, and the message of [fmt.Errorf]. *)
Inductive error :=
| PathError (op path : string) (errno : Errno)
| Errorf (msg : string).

Definition Errno_string (e : Errno) : string :=
  match e with
  | ENOENT => "no such file or directory"
  | EACCES => "permission denied"
  | EIO => "input/output error"
  end.

(** [err.Error()], which is what the verb [%v] prints for an error. *)
Definition Error (e : error) : string :=
  match e with
  | PathError op path errno => op ++ " " ++ path ++ ": " ++ Errno_string errno
  | Errorf msg => msg
  end.

(** [os.IsNotExist]. *)
Definition IsNotExist (e : error) : bool :=
  match e with
  | PathError _ _ ENOENT => true
  | _ => false
  end.

Inductive panic_value :=
| PanicMsg (msg : string)        (* panic(msg) *)
| NilDereference                 (* invalid memory address or nil pointer dereference *)
| IndexOutOfRange.

Inductive outcome (A : Type) :=
| Returned (a : A)
| Panicked (p : panic_value).
Arguments Returned {A} a.
Arguments Panicked {A} p.

(** ** Data records *)

Record unresolvedChartDependency := mkUnresolved {
  ChartName : string;
  Repository : string;
  VersionConstraint : string;
}.

Module ResolvedChartDependency.
Record t := mk {
  ChartName : string;
  Repository : string;
  Version : string;
}.
End ResolvedChartDependency.

(** The map of an [UnresolvedDependencies] is the one made at line 212, and
    the map of a [ResolvedDependencies] the one made at line 339: the code has
    no set with a nil map. *)
Record UnresolvedDependencies := mkUnresolvedDependencies {
  deps : gmap string unresolvedChartDependency;
}.

Record ChartRequirements := mkChartRequirements {
  Requirements : list unresolvedChartDependency;
}.

Record ChartLockedRequirements := mkChartLockedRequirements {
  Locked : list ResolvedChartDependency.t;
}.

Record ResolvedDependencies := mkResolvedDependencies {
  rdeps : gmap string ResolvedChartDependency.t;
}.

(** What [%v] prints for a value of the struct: its fields between braces. *)
Definition fmt_unresolved (d : unresolvedChartDependency) : string :=
  "{" ++ ChartName d ++ " " ++ Repository d ++ " " ++ VersionConstraint d ++ "}".

(** ** UnresolvedDependencies *)

Definition duplicate_unresolved (existing dep : unresolvedChartDependency) : error :=
  Errorf ("duplicate chart dependency " ++ dquote ++ ChartName dep ++ dquote
          ++ ". you can't have two or more charts with the same name but with different urls or versions: existing="
          ++ fmt_unresolved existing ++ ", new=" ++ fmt_unresolved dep).

(** [UnresolvedDependencies.add]: the receiver is updated in place; the
    updated receiver is returned next to the error. *)
Definition add (dep : unresolvedChartDependency) (d : UnresolvedDependencies)
  : option error * UnresolvedDependencies :=
  match deps d !! ChartName dep with
  | Some existing =>
      if negb (String.eqb (Repository existing) (Repository dep))
         || negb (String.eqb (VersionConstraint existing) (VersionConstraint dep))
      then (Some (duplicate_unresolved existing dep), d)
      else (None, mkUnresolvedDependencies (<[ChartName dep := dep]> (deps d)))
  | None => (None, mkUnresolvedDependencies (<[ChartName dep := dep]> (deps d)))
  end.

Definition Add (chart url versionConstraint : string) (d : UnresolvedDependencies)
  : option error * UnresolvedDependencies :=
  let dep := mkUnresolved chart url versionConstraint in
  add dep d.

(** The body of the loop of [ToChartRequirements]: [d] is the loop's own
    copy of the map value. *)
Definition defaultConstraint (d : unresolvedChartDependency) : unresolvedChartDependency :=
  if String.eqb (VersionConstraint d) EmptyString
  then mkUnresolved (ChartName d) (Repository d) "*"
  else d.

(** [UnresolvedDependencies.ToChartRequirements]. Go ranges over the map
    in an unspecified order; the model ranges in the order of [map_to_list].
    The receiver is returned as the call leaves it. *)
Definition ToChartRequirements (d : UnresolvedDependencies)
  : ChartRequirements * UnresolvedDependencies :=
  let out :=
    foldl (fun acc kv => (acc ++ [defaultConstraint kv.2])%list) [] (map_to_list (deps d)) in
  (mkChartRequirements out, d).

(** ** ResolvedDependencies *)

(** [ResolvedDependencies.add], named [radd] next to the [add] of
    [UnresolvedDependencies]. *)
Definition radd (dep : ResolvedChartDependency.t) (d : ResolvedDependencies)
  : option error * ResolvedDependencies :=
  match rdeps d !! ResolvedChartDependency.ChartName dep with
  | Some _ =>
      (Some (Errorf ("duplicate chart dependency " ++ dquote ++ ResolvedChartDependency.ChartName dep ++ dquote)), d)
  | None => (None, mkResolvedDependencies (<[ResolvedChartDependency.ChartName dep := dep]> (rdeps d)))
  end.

Definition not_found (chart : string) : error :=
  Errorf ("no resolved dependency found for " ++ dquote ++ chart ++ dquote).

(** [ResolvedDependencies.Get]: the receiver is a pointer, [None] when it
    is [nil]; reading [d.deps] through a nil pointer panics. *)
Definition Get (d : option ResolvedDependencies) (chart : string)
  : outcome (string * option error) :=
  match d with
  | None => Panicked NilDereference
  | Some d =>
      match rdeps d !! chart with
      | None => Returned (EmptyString, Some (not_found chart))
      | Some dep => Returned (ResolvedChartDependency.Version dep, None)
      end
  end.

(** ** The consuming document *)

Module RepositorySpec.
Record t := mk {
  Name : string;
  URL : string;
}.
End RepositorySpec.

Module ReleaseSpec.
Record t := mk {
  Chart : string;
  Version : string;
}.
Definition setVersion (ver : string) (r : t) : t := mk (Chart r) ver.
End ReleaseSpec.

Definition loc := positive.

(** Modelled from the spec: the declaration of [HelmState] (with
    [RepositorySpec] and [ReleaseSpec]) is not part of this file; the
    records carry the fields this file reads and writes: [st.FilePath],
    [st.Repositories] with [r.Name] and [r.URL], [st.Releases] with
    [r.Chart] and [r.Version]. [Releases] is a Go slice, assigned through an
    index at line 180: the struct holds the slice header, which is the
    location of the backing array in the heap, so that copying a [HelmState]
    value copies the header and shares the array. [Repositories] is only
    read and is kept by value. *)
Record HelmState := mkHelmState {
  FilePath : string;
  Repositories : list RepositorySpec.t;
  Releases : loc;
}.

(** ** The world: the file system and the Go heap *)

(** [files] maps a path to the content of the file there. [deny_read] and
    [deny_write] list the paths on which the operation fails, with the reason
    of the failure. [structs] and [arrays] are the heap: the [HelmState]
    values behind the pointers, and the backing arrays of the release
    slices. *)
Record world := mkWorld {
  files : gmap string string;
  deny_read : gmap string Errno;
  deny_write : gmap string Errno;
  structs : gmap loc HelmState;
  arrays : gmap loc (list ReleaseSpec.t);
}.

Definition set_files (f : gmap string string) (w : world) : world :=
  mkWorld f (deny_read w) (deny_write w) (structs w) (arrays w).
Definition set_structs (s : gmap loc HelmState) (w : world) : world :=
  mkWorld (files w) (deny_read w) (deny_write w) s (arrays w).
Definition set_arrays (a : gmap loc (list ReleaseSpec.t)) (w : world) : world :=
  mkWorld (files w) (deny_read w) (deny_write w) (structs w) a.

(** The state monad of the embedding; a panic stops the computation. *)
Definition M (A : Type) : Type := world -> outcome A * world.

Definition ret {A} (a : A) : M A := fun w => (Returned a, w).
Definition bind {A B} (m : M A) (k : A -> M B) : M B :=
  fun w =>
    match m w with
    | (Returned a, w') => k a w'
    | (Panicked p, w') => (Panicked p, w')
    end.
Definition panic {A} (p : panic_value) : M A := fun w => (Panicked p, w).
Definition lift {A} (o : outcome A) : M A := fun w => (o, w).

Notation "'let*' x ':=' m 'in' k" := (bind m (fun x => k))
  (at level 10, x pattern, m at level 100, k at level 200).

(** Heap accesses. A pointer that is nil or dangling has no entry. *)
Definition load (st : loc) : M HelmState :=
  fun w => match structs w !! st with
           | Some s => (Returned s, w)
           | None => (Panicked NilDereference, w)
           end.

Definition alloc (s : HelmState) : M loc :=
  fun w => let l := fresh (dom (structs w)) in
           (Returned l, set_structs (<[l := s]> (structs w)) w).

Definition slice_len (a : loc) : M nat :=
  fun w => (Returned (length (default [] (arrays w !! a))), w).

Definition slice_elems (a : loc) : M (list ReleaseSpec.t) :=
  fun w => (Returned (default [] (arrays w !! a)), w).

Definition slice_get (a : loc) (i : nat) : M ReleaseSpec.t :=
  fun w => match default [] (arrays w !! a) !! i with
           | Some r => (Returned r, w)
           | None => (Panicked IndexOutOfRange, w)
           end.

(** [s[i].Version = ver] on the backing array at [a]. *)
Definition slice_set_version (a : loc) (i : nat) (ver : string) : M unit :=
  fun w => match arrays w !! a with
           | Some rs =>
               match rs !! i with
               | Some r =>
                   (Returned tt,
                    set_arrays (<[a := <[i := ReleaseSpec.setVersion ver r]> rs]> (arrays w)) w)
               | None => (Panicked IndexOutOfRange, w)
               end
           | None => (Panicked IndexOutOfRange, w)
           end.

(** ** What the file takes from elsewhere *)

Definition bytes := option string.

(** [isLocalChart] is a function of package [state] declared in another
    file; [filepath.Base], [filepath.Join], [yaml.Marshal] and
    [yaml.Unmarshal] come from libraries. The development is parametric in
    them. *)
Class Externals := {
  isLocalChart : string -> bool;
  filepath_Base : string -> string;
  filepath_Join : string -> string -> string;
  yaml_Marshal : ChartRequirements -> bytes * option error;
  yaml_Unmarshal : bytes -> ChartLockedRequirements * option error;
}.

(** [helmexec.DependencyUpdater]. *)
Record DependencyUpdater := mkUpdater {
  UpdateDeps : string -> M (option error);
}.

(** ** Classification of a chart reference *)

Definition resolveRemoteChart `{Externals} (repoAndChart : string)
  : outcome (string * string * bool) :=
  let parts := Split repoAndChart "/" in
  if isLocalChart repoAndChart then Returned (EmptyString, EmptyString, false)
  else if negb (Nat.eqb (length parts) 2) then
    Panicked (PanicMsg ("unsupported format of chart name: " ++ repoAndChart))
  else
    let repo := nth 0 parts EmptyString in
    let chart := nth 1 parts EmptyString in
    Returned (repo, chart, true).

(** ** The dependency manager *)

Record chartDependencyManager := mkManager {
  Name : string;
  readFile : string -> M (bytes * option error);
  writeFile : string -> bytes -> N -> M (option error);
}.

(** [ioutil.ReadFile] and [ioutil.WriteFile] on the file system of the
    world. *)
Definition ioutil_ReadFile (filename : string) : M (bytes * option error) :=
  fun w =>
    match deny_read w !! filename with
    | Some errno => (Returned (None, Some (PathError "open" filename errno)), w)
    | None =>
        match files w !! filename with
        | Some content => (Returned (Some content, None), w)
        | None => (Returned (None, Some (PathError "open" filename ENOENT)), w)
        end
    end.

Definition ioutil_WriteFile (filename : string) (data : bytes) (perm : N)
  : M (option error) :=
  fun w =>
    match deny_write w !! filename with
    | Some errno => (Returned (Some (PathError "open" filename errno)), w)
    | None =>
        (Returned None, set_files (<[filename := default EmptyString data]> (files w)) w)
    end.

Definition NewChartDependencyManager (name : string) : chartDependencyManager :=
  mkManager name ioutil_ReadFile ioutil_WriteFile.

Definition lockFileName (m : chartDependencyManager) : string :=
  Name m ++ ".lock".

Definition readBytes (m : chartDependencyManager) (filename : string)
  : M (bytes * option error) :=
  let* (data, err) := readFile m filename in
  match err with
  | Some err => ret (None, Some err)
  | None => ret (data, None)
  end.

Definition writeBytes (m : chartDependencyManager) (filename : string) (data : bytes)
  : M (option error) :=
  let* err := writeFile m filename data 420%N in
  match err with
  | Some err => ret (Some err)
  | None => ret None
  end.

(** The loop of [Resolve] over the parsed lock: it stops at the first
    duplicate. *)
Fixpoint addResolved (ds : list ResolvedChartDependency.t) (resolved : ResolvedDependencies)
  : option error * ResolvedDependencies :=
  match ds with
  | [] => (None, resolved)
  | d :: ds' =>
      match radd d resolved with
      | (Some err, resolved') => (Some err, resolved')
      | (None, resolved') => addResolved ds' resolved'
      end
  end.

Definition Resolve `{Externals} (m : chartDependencyManager)
    (unresolved : UnresolvedDependencies)
  : M (option ResolvedDependencies * bool * option error) :=
  let* (updatedLockFileContent, err) := readBytes m (lockFileName m) in
  match err with
  | Some err =>
      if IsNotExist err then ret (None, true, None)
      else ret (None, false, Some err)
  | None =>
      let '(lockedReqs, err) := yaml_Unmarshal updatedLockFileContent in
      match err with
      | Some err => ret (None, false, Some err)
      | None =>
          let resolved := mkResolvedDependencies ∅ in
          match addResolved (Locked lockedReqs) resolved with
          | (Some err, _) => ret (None, false, Some err)
          | (None, resolved) => ret (Some resolved, true, None)
          end
      end
  end.

Definition Update `{Externals} (m : chartDependencyManager) (shell : DependencyUpdater)
    (wd : string) (unresolved : UnresolvedDependencies)
  : M (option ResolvedDependencies * option error) :=
  (* Generate Chart.yaml of the temporary local chart *)
  let* err := writeBytes m (filepath_Join wd "Chart.yaml")
                (Some ("name: " ++ Name m ++ nl)) in
  match err with
  | Some err => ret (None, Some err)
  | None =>
  (* Generate requirements.yaml from the helmfile state *)
  let '(reqsContent, err) := yaml_Marshal (ToChartRequirements unresolved).1 in
  match err with
  | Some err => ret (None, Some err)
  | None =>
  let* err := writeBytes m (filepath_Join wd "requirements.yaml") reqsContent in
  match err with
  | Some err => ret (None, Some err)
  | None =>
  (* Generate requirements.lock by copying <basename>.lock *)
  let lockFile := lockFileName m in
  let* (lockFileContent, err) := readBytes m lockFile in
  if match err with Some err => negb (IsNotExist err) | None => false end
  then ret (None, err)
  else
  let* err :=
    match lockFileContent with
    | Some _ => writeBytes m (filepath_Join wd "requirements.lock") lockFileContent
    | None => ret None
    end in
  match err with
  | Some err => ret (None, Some err)
  | None =>
  (* Update the lock file by running helm dependency update *)
  let* err := UpdateDeps shell wd in
  match err with
  | Some err => ret (None, Some err)
  | None =>
  let* (updatedLockFileContent, err) :=
    readBytes m (filepath_Join wd "requirements.lock") in
  match err with
  | Some err => ret (None, Some err)
  | None =>
  (* Commit the lock file *)
  let* err := writeBytes m lockFile updatedLockFileContent in
  match err with
  | Some err => ret (None, Some err)
  | None =>
  let* (resolved_exists, err) := Resolve m unresolved in
  ret (resolved_exists.1, err)
  end end end end end end end.

(** ** Orchestration: scan, merge, update *)

(** The map from repository alias to URL built by the first loop of
    [getUnresolvedDependenciess] and of [resolveDependencies]. *)
Definition buildRepoToURL (repos : list RepositorySpec.t) : gmap string string :=
  foldl (fun repoToURL r => <[RepositorySpec.Name r := RepositorySpec.URL r]> repoToURL)
        ∅ repos.

(** The loop of [getUnresolvedDependenciess] over the releases. *)
Fixpoint scanReleases `{Externals} (repoToURL : gmap string string)
    (rs : list ReleaseSpec.t) (unresolved : UnresolvedDependencies)
  : outcome (option error * UnresolvedDependencies) :=
  match rs with
  | [] => Returned (None, unresolved)
  | r :: rs' =>
      match resolveRemoteChart (ReleaseSpec.Chart r) with
      | Panicked p => Panicked p
      | Returned (repo, chart, ok) =>
          if negb ok then scanReleases repoToURL rs' unresolved
          else
            match repoToURL !! repo with
            | None => scanReleases repoToURL rs' unresolved
            | Some url =>
                match Add chart url (ReleaseSpec.Version r) unresolved with
                | (Some err, unresolved') => Returned (Some err, unresolved')
                | (None, unresolved') => scanReleases repoToURL rs' unresolved'
                end
            end
      end
  end.

Definition getUnresolvedDependenciess `{Externals} (st : loc)
  : M (string * option UnresolvedDependencies * option error) :=
  let* s := load st in
  let repoToURL := buildRepoToURL (Repositories s) in
  let unresolved := mkUnresolvedDependencies ∅ in
  let* releases := slice_elems (Releases s) in
  let* (err, unresolved) := lift (scanReleases repoToURL releases unresolved) in
  match err with
  | Some err => ret (EmptyString, None, Some err)
  | None =>
      let filename := filepath_Base (FilePath s) in
      let filename := TrimSuffix filename ".gotmpl" in
      let filename := TrimSuffix filename ".yaml" in
      let filename := TrimSuffix filename ".yml" in
      ret (filename, Some unresolved, None)
  end.

(** The second loop of [resolveDependencies], over the indices of
    [updated.Releases], whose backing array is at [a]. *)
Fixpoint mergeReleases `{Externals} (repoToURL : gmap string string)
    (resolved : option ResolvedDependencies) (a : loc) (indices : list nat)
  : M (option error) :=
  match indices with
  | [] => ret None
  | i :: indices' =>
      let* r := slice_get a i in
      let* (repo_chart, ok) := lift (resolveRemoteChart (ReleaseSpec.Chart r)) in
      if negb ok then mergeReleases repoToURL resolved a indices'
      else
        match repoToURL !! repo_chart.1 with
        | None => mergeReleases repoToURL resolved a indices'
        | Some _ =>
            let* (ver, err) := lift (Get resolved repo_chart.2) in
            match err with
            | Some err => ret (Some err)
            | None =>
                let* _ := slice_set_version a i ver in
                mergeReleases repoToURL resolved a indices'
            end
        end
  end.

Definition unable_to_resolve (unresolved : UnresolvedDependencies) (err : error) : error :=
  Errorf ("unable to resolve " ++ itoa (size (deps unresolved)) ++ " deps: " ++ Error err).

Definition resolveDependencies `{Externals} (st : loc) (depMan : chartDependencyManager)
    (unresolved : UnresolvedDependencies)
  : M (option loc * option error) :=
  let* (resolved_exists, err) := Resolve depMan unresolved in
  let '(resolved, lockfileExists) := resolved_exists in
  match err with
  | Some err => ret (None, Some (unable_to_resolve unresolved err))
  | None =>
      if negb lockfileExists then ret (Some st, None)
      else
        let* s := load st in
        let repoToURL := buildRepoToURL (Repositories s) in
        (* updated := *st *)
        let* updated := alloc s in
        let* n := slice_len (Releases s) in
        let* err := mergeReleases repoToURL resolved (Releases s) (seq 0 n) in
        match err with
        | Some err => ret (None, Some err)
        | None => ret (Some updated, None)
        end
  end.

Definition mergeLockedDependencies `{Externals} (st : loc)
  : M (option loc * option error) :=
  let* (filename_unresolved, err) := getUnresolvedDependenciess st in
  let '(filename, unresolved) := filename_unresolved in
  match err, unresolved with
  | Some err, _ => ret (None, Some err)
  | None, None => panic NilDereference
  | None, Some unresolved =>
      if Nat.eqb (size (deps unresolved)) 0 then ret (Some st, None)
      else
        let depMan := NewChartDependencyManager filename in
        resolveDependencies st depMan unresolved
  end.

Definition updateDependencies `{Externals} (st : loc) (shell : DependencyUpdater)
    (unresolved : UnresolvedDependencies) (filename wd : string)
  : M (option loc * option error) :=
  let depMan := NewChartDependencyManager filename in
  let* (_, err) := Update depMan shell wd unresolved in
  match err with
  | Some err => ret (None, Some (unable_to_resolve unresolved err))
  | None => resolveDependencies st depMan unresolved
  end.

(** ** What the two loops do, release by release

    Both loops take the same decision for a release: it is under dependency
    management when its reference is remote and its alias is mapped. The
    definitions below state that decision and the effect of the merge loop on
    a list of releases; the loops of the code are proved to agree with them
    further down. *)

(** The chart name and the repository URL of a managed release, [None] for a
    release the loops skip. *)
Definition managedChart `{Externals} (repoToURL : gmap string string) (r : ReleaseSpec.t)
  : outcome (option (string * string)) :=
  match resolveRemoteChart (ReleaseSpec.Chart r) with
  | Panicked p => Panicked p
  | Returned (repo, chart, ok) =>
      if negb ok then Returned None
      else match repoToURL !! repo with
           | None => Returned None
           | Some url => Returned (Some (chart, url))
           end
  end.

(** The merge loop on a list of releases: its result, and the releases as it
    leaves them. *)
Fixpoint mergeList `{Externals} (repoToURL : gmap string string)
    (resolved : option ResolvedDependencies) (rs : list ReleaseSpec.t)
  : outcome (option error) * list ReleaseSpec.t :=
  match rs with
  | [] => (Returned None, [])
  | r :: rs' =>
      match managedChart repoToURL r with
      | Panicked p => (Panicked p, r :: rs')
      | Returned None =>
          let '(o, l) := mergeList repoToURL resolved rs' in (o, r :: l)
      | Returned (Some (chart, _)) =>
          match Get resolved chart with
          | Panicked p => (Panicked p, r :: rs')
          | Returned (_, Some err) => (Returned (Some err), r :: rs')
          | Returned (ver, None) =>
              let '(o, l) := mergeList repoToURL resolved rs' in
              (o, ReleaseSpec.setVersion ver r :: l)
          end
      end
  end.

(** A release after a merge that succeeds: a managed release has the version
    of its entry in the resolved set. *)
Definition mergedRelease `{Externals} (repoToURL : gmap string string)
    (rd : ResolvedDependencies) (r : ReleaseSpec.t) : ReleaseSpec.t :=
  match managedChart repoToURL r with
  | Returned (Some (chart, _)) =>
      match rdeps rd !! chart with
      | Some dep => ReleaseSpec.setVersion (ResolvedChartDependency.Version dep) r
      | None => r
      end
  | _ => r
  end.

(** [Update] in two parts, around the call of the updater: what it does
    before the call, and what it does once the updater has returned without
    error. [Update_phases] below proves that [Update] is the first part, the
    call, and the second part, in this order. *)
Definition UpdateStage `{Externals} (m : chartDependencyManager) (wd : string)
    (unresolved : UnresolvedDependencies) : M (option error) :=
  let* err := writeBytes m (filepath_Join wd "Chart.yaml")
                (Some ("name: " ++ Name m ++ nl)) in
  match err with
  | Some err => ret (Some err)
  | None =>
  let '(reqsContent, err) := yaml_Marshal (ToChartRequirements unresolved).1 in
  match err with
  | Some err => ret (Some err)
  | None =>
  let* err := writeBytes m (filepath_Join wd "requirements.yaml") reqsContent in
  match err with
  | Some err => ret (Some err)
  | None =>
  let* (lockFileContent, err) := readBytes m (lockFileName m) in
  if match err with Some err => negb (IsNotExist err) | None => false end
  then ret err
  else
    match lockFileContent with
    | Some _ => writeBytes m (filepath_Join wd "requirements.lock") lockFileContent
    | None => ret None
    end
  end end end.

Definition UpdateCommit `{Externals} (m : chartDependencyManager) (wd : string)
    (unresolved : UnresolvedDependencies)
  : M (option ResolvedDependencies * option error) :=
  let* (updatedLockFileContent, err) :=
    readBytes m (filepath_Join wd "requirements.lock") in
  match err with
  | Some err => ret (None, Some err)
  | None =>
  let* err := writeBytes m (lockFileName m) updatedLockFileContent in
  match err with
  | Some err => ret (None, Some err)
  | None =>
  let* (resolved_exists, err) := Resolve m unresolved in
  ret (resolved_exists.1, err)
  end end.

(** What [Resolve] makes of the content of a lock file. *)
Definition resolveContent `{Externals} (c : string) : option ResolvedDependencies * option error :=
  match yaml_Unmarshal (Some c) with
  | (_, Some err) => (None, Some err)
  | (lockedReqs, None) =>
      match addResolved (Locked lockedReqs) (mkResolvedDependencies ∅) with
      | (Some err, _) => (None, Some err)
      | (None, resolved) => (Some resolved, None)
      end
  end.

(** ** A concrete instance of the external functions, for running the code *)

Module Demo.

Definition hasPrefix (p s : string) : bool := String.prefix p s.

(** Modelled from the spec: [isLocalChart] is declared outside this file; the
    specification calls a reference local when it is a filesystem-style
    path, such as [./local/app]. *)
Definition isLocalChart (chart : string) : bool :=
  hasPrefix "./" chart || hasPrefix "../" chart || hasPrefix "/" chart.

(** [filepath.Base] on a path without trailing separators: what follows the
    last separator. *)
Definition Base (path : string) : string :=
  if String.eqb path EmptyString then "."
  else List.last (Split path "/") EmptyString.

(** [filepath.Join] of a clean, non-empty directory and a file name. *)
Definition Join (dir elem : string) : string := dir ++ "/" ++ elem.

(** A line-based stand-in for the YAML codec: one dependency per line, its
    three fields separated by one space. *)
Definition marshalLine (d : unresolvedChartDependency) : string :=
  ChartName d ++ " " ++ Repository d ++ " " ++ VersionConstraint d ++ nl.

Definition Marshal (reqs : ChartRequirements) : bytes * option error :=
  (Some (String.concat EmptyString (map marshalLine (Requirements reqs))), None).

Fixpoint unmarshalLines (lines : list string)
  : list ResolvedChartDependency.t * option error :=
  match lines with
  | [] => ([], None)
  | line :: lines' =>
      if String.eqb line EmptyString then unmarshalLines lines'
      else
        match Split line " " with
        | [name; repo; ver] =>
            let '(ds, err) := unmarshalLines lines' in
            (ResolvedChartDependency.mk name repo ver :: ds, err)
        | _ => ([], Some (Errorf ("yaml: cannot unmarshal " ++ line)))
        end
  end.

Definition Unmarshal (data : bytes) : ChartLockedRequirements * option error :=
  let '(ds, err) := unmarshalLines (Split (default EmptyString data) "010"%char) in
  (mkChartLockedRequirements ds, err).

Definition externals : Externals :=
  Build_Externals isLocalChart Base Join Marshal Unmarshal.

(** An updater that writes [output] as the lock of the workspace, and one
    that fails. *)
Definition writingUpdater (output : string) : DependencyUpdater :=
  mkUpdater (fun wd w =>
    (Returned None, set_files (<[Join wd "requirements.lock" := output]> (files w)) w)).

Definition failingUpdater (msg : string) : DependencyUpdater :=
  mkUpdater (fun wd w => (Returned (Some (Errorf msg)), w)).

Definition emptyWorld : world := mkWorld ∅ ∅ ∅ ∅ ∅.

(** A document with two managed releases and a local one, at location 1,
    its releases at location 7. *)
Definition chartsURL : string := "https://example.com/charts".

Definition document : HelmState :=
  mkHelmState "/work/helmfile.yaml" [RepositorySpec.mk "myrepo" chartsURL] 7%positive.

Definition envoy : ReleaseSpec.t := ReleaseSpec.mk "myrepo/envoy" EmptyString.
Definition nginx : ReleaseSpec.t := ReleaseSpec.mk "myrepo/nginx" ">=1.0".
Definition localApp : ReleaseSpec.t := ReleaseSpec.mk "./local/app" EmptyString.
Definition foo : ReleaseSpec.t := ReleaseSpec.mk "otherrepo/foo" EmptyString.

Definition releases : list ReleaseSpec.t := [envoy; nginx; localApp].

Definition scanned : UnresolvedDependencies :=
  (Add "nginx" chartsURL ">=1.0"
     (Add "envoy" chartsURL EmptyString (mkUnresolvedDependencies ∅)).2).2.

Definition worldOf (fs : gmap string string) (rs : list ReleaseSpec.t) : world :=
  mkWorld fs ∅ ∅ {[ 1%positive := document ]} {[ 7%positive := rs ]}.

Definition lockOfBoth : string :=
  "envoy https://example.com/charts 1.2.3" ++ nl
  ++ "nginx https://example.com/charts 1.4.0" ++ nl.

Definition lockOfEnvoy : string :=
  "envoy https://example.com/charts 1.2.3" ++ nl.

Definition resolvedBoth : ResolvedDependencies :=
  mkResolvedDependencies
    (<["nginx" := ResolvedChartDependency.mk "nginx" chartsURL "1.4.0"]>
       (<["envoy" := ResolvedChartDependency.mk "envoy" chartsURL "1.2.3"]> ∅)).

Definition resolvedEnvoy : ResolvedDependencies :=
  mkResolvedDependencies
    (<["envoy" := ResolvedChartDependency.mk "envoy" chartsURL "1.2.3"]> ∅).

End Demo.

(** ** The update in a temporary directory *)

(** [os.RemoveAll] comes from the library; the development is parametric in
    it. *)
Class Removal := {
  os_RemoveAll : string -> M (option error);
}.

(** [defer f(); body]: the deferred call runs when the body is left, by a
    return or by a panic; its result is dropped. A panic of the deferred
    call takes the place of the outcome of the body. *)
Definition defer {A B} (deferred : M B) (body : M A) : M A :=
  fun w =>
    match body w with
    | (o, w1) =>
        match deferred w1 with
        | (Returned _, w2) => (o, w2)
        | (Panicked p, w2) => (Panicked p, w2)
        end
    end.

Definition unable_to_create_dir (err : error) : error :=
  Errorf ("unable to create dir: " ++ Error err).

Definition updateDependenciesInTempDir `{Externals} `{Removal} (st : loc)
    (shell : DependencyUpdater) (tempDir : string -> string -> M (string * option error))
  : M (option loc * option error) :=
  let* (filename_unresolved, err) := getUnresolvedDependenciess st in
  let '(filename, unresolved) := filename_unresolved in
  match err, unresolved with
  | Some err, _ => ret (None, Some err)
  | None, None => panic NilDereference
  | None, Some unresolved =>
      if Nat.eqb (size (deps unresolved)) 0 then ret (Some st, None)
      else
        let* (d, err) := tempDir EmptyString EmptyString in
        match err with
        | Some err => ret (None, Some (unable_to_create_dir err))
        | None =>
            defer (os_RemoveAll d) (updateDependencies st shell unresolved filename d)
        end
  end.

(** ** Notions used in the statements about the sets *)

(** The spec that the scan adds for a managed release. *)
Definition specOf (chart url : string) (r : ReleaseSpec.t) : unresolvedChartDependency :=
  mkUnresolved chart url (ReleaseSpec.Version r).

(** Every entry of the set is stored under its own chart name. *)
Definition keysAreNames (d : UnresolvedDependencies) : Prop :=
  forall n spec, deps d !! n = Some spec -> ChartName spec = n.

(** A release the two loops skip: its reference is local, or its alias is
    not mapped. *)
Definition skippedRelease `{Externals} (repoToURL : gmap string string)
    (r : ReleaseSpec.t) : Prop :=
  exists repo chart ok,
    resolveRemoteChart (ReleaseSpec.Chart r) = Returned (repo, chart, ok)
    /\ (ok = false \/ repoToURL !! repo = None).

(** The file names that belong to a directory. *)
Definition underDir (dir path : string) : bool :=
  String.eqb path dir || String.prefix (dir ++ "/") path.

Module DemoOS.

(** A removal that deletes the directory and the files below it, and does
    nothing for the empty path. *)
Definition RemoveAll (path : string) : M (option error) :=
  fun w =>
    if String.eqb path EmptyString then (Returned None, w)
    else (Returned None,
          set_files (filter (fun kv => underDir path kv.1 = false) (files w)) w).

Definition removal : Removal := Build_Removal RemoveAll.

Definition tempDir (dir : string) (_ _ : string) : M (string * option error) :=
  fun w => (Returned (dir, None), w).

Definition failingTempDir (_ _ : string) : M (string * option error) :=
  fun w => (Returned (EmptyString, Some (PathError "mkdir" "/tmp" EACCES)), w).

End DemoOS.

(** The files once [Update] has prepared the workspace, for a requirements
    document that serializes to [content] and a file system that does not
    fail. *)
Definition stagedFiles `{Externals} (name wd : string) (content : bytes)
    (fs : gmap string string) : gmap string string :=
  let fs2 :=
    <[filepath_Join wd "requirements.yaml" := default EmptyString content]>
      (<[filepath_Join wd "Chart.yaml" := "name: " ++ name ++ nl]> fs) in
  match fs2 !! (name ++ ".lock") with
  | Some c => <[filepath_Join wd "requirements.lock" := c]> fs2
  | None => fs2
  end.

(** What [Update] does from the call of the updater on. *)
Definition UpdateFromUpdater `{Externals} (m : chartDependencyManager)
    (shell : DependencyUpdater) (wd : string) (unresolved : UnresolvedDependencies)
  : M (option ResolvedDependencies * option error) :=
  let* err := UpdateDeps shell wd in
  match err with
  | Some err => ret (None, Some err)
  | None => UpdateCommit m wd unresolved
  end.

(** Whether a byte occurs in a string. *)
Fixpoint containsByte (c : ascii) (s : string) : bool :=
  match s with
  | EmptyString => false
  | String c' s' => Ascii.eqb c' c || containsByte c s'
  end.

(** A requirements document of a set, in whatever order the range over the
    map has produced it: one spec per entry, with the constraint
    defaulted. *)
Definition requirementsOf (u : UnresolvedDependencies) (r : ChartRequirements) : Prop :=
  (forall x, x ∈ Requirements r <->
             exists n spec, deps u !! n = Some spec /\ x = defaultConstraint spec)
  /\ length (Requirements r) = size (deps u).

(** * Properties *)

(** ** The library functions on strings *)

Example Split_three : Split "a/b/c" "/" = ["a"; "b"; "c"].
Proof. reflexivity. Qed.

Example Split_no_separator : Split "abc" "/" = ["abc"].
Proof. reflexivity. Qed.

Example Split_trailing : Split "a/" "/" = ["a"; EmptyString].
Proof. reflexivity. Qed.

Example TrimSuffix_present : TrimSuffix "helmfile.yaml" ".yaml" = "helmfile".
Proof. reflexivity. Qed.

Example TrimSuffix_absent : TrimSuffix "helmfile.yml" ".yaml" = "helmfile.yml".
Proof. reflexivity. Qed.

(** ** UnresolvedDependencies *)

Section UnresolvedSet.

Implicit Types (d : UnresolvedDependencies) (dep : unresolvedChartDependency).


Lemma add_fresh dep d :
  deps d !! ChartName dep = None ->
  add dep d = (None, mkUnresolvedDependencies (<[ChartName dep := dep]> (deps d))).
Proof. intros Hnone. unfold add. by rewrite Hnone. Qed.



(** An [add] that reports no error has stored its argument. *)
Lemma add_ok_lookup dep d d' :
  add dep d = (None, d') -> deps d' !! ChartName dep = Some dep.
Proof.
  unfold add. destruct (deps d !! ChartName dep) as [existing|].
  - destruct (_ || _); intros [= <-]. simpl. apply lookup_insert_eq.
  - intros [= <-]. simpl. apply lookup_insert_eq.
Qed.


End UnresolvedSet.



Example conflict_message :
  Error (duplicate_unresolved (mkUnresolved "envoy" "u1" "1.2.0") (mkUnresolved "envoy" "u2" "1.2.0"))
  = "duplicate chart dependency " ++ dquote ++ "envoy" ++ dquote
    ++ ". you can't have two or more charts with the same name but with different urls or versions: existing={envoy u1 1.2.0}, new={envoy u2 1.2.0}".
Proof. reflexivity. Qed.

(** The loop of [ToChartRequirements] appends one defaulted copy per
    entry. *)
Lemma foldl_snoc_map {A B} (f : A -> B) (l : list A) (acc : list B) :
  foldl (fun acc x => (acc ++ [f x])%list) acc l = (acc ++ map f l)%list.
Proof.
  revert acc. induction l as [|x l IH]; intros acc; simpl.
  - by rewrite app_nil_r.
  - rewrite IH. by rewrite <- app_assoc.
Qed.

Lemma ToChartRequirements_list (d : UnresolvedDependencies) :
  Requirements (ToChartRequirements d).1
  = map (fun kv => defaultConstraint kv.2) (map_to_list (deps d)).
Proof. unfold ToChartRequirements. simpl. by rewrite foldl_snoc_map. Qed.

Lemma defaultConstraint_fields (spec x : unresolvedChartDependency) :
  x = defaultConstraint spec <->
  ChartName x = ChartName spec
  /\ Repository x = Repository spec
  /\ VersionConstraint x
     = (if String.eqb (VersionConstraint spec) EmptyString then "*"
        else VersionConstraint spec).
Proof.
  unfold defaultConstraint. destruct spec as [n r v], x as [n' r' v']; simpl.
  destruct (String.eqb v EmptyString); split.
  - by intros [= -> -> ->].
  - by intros (-> & -> & ->).
  - by intros [= -> -> ->].
  - by intros (-> & -> & ->).
Qed.

(** C7. [ToChartRequirements] emits one spec per stored spec, with the same
    name and repository and with the constraint ["*"] where the stored one is
    empty; the set after the call is the set before it, so every stored spec
    still has the constraint it was added with. *)
Theorem ToChartRequirements_defaults_output_only :
  forall d : UnresolvedDependencies,
    let reqs := (ToChartRequirements d).1 in
    let d' := (ToChartRequirements d).2 in
    d' = d
    /\ (forall name spec, deps d !! name = Some spec <-> deps d' !! name = Some spec)
    /\ length (Requirements reqs) = size (deps d)
    /\ (forall x,
          x ∈ Requirements reqs <->
          exists name spec,
            deps d !! name = Some spec
            /\ ChartName x = ChartName spec
            /\ Repository x = Repository spec
            /\ VersionConstraint x
               = (if String.eqb (VersionConstraint spec) EmptyString then "*"
                  else VersionConstraint spec)).
Proof.
  intros d reqs d'. subst reqs d'. split; [reflexivity|]. split; [done|]. split.
  - rewrite ToChartRequirements_list, length_map. apply length_map_to_list.
  - intros x. rewrite ToChartRequirements_list, list_elem_of_fmap. split.
    + intros ([name spec] & Hx & Hin). apply elem_of_map_to_list in Hin.
      exists name, spec. split; [done|]. by apply defaultConstraint_fields.
    + intros (name & spec & Hin & Hx). exists (name, spec). split.
      * by apply defaultConstraint_fields.
      * by apply elem_of_map_to_list.
Qed.

Example ToChartRequirements_empty_constraint :
  let d := (Add "envoy" "https://example.com/charts" EmptyString (mkUnresolvedDependencies ∅)).2 in
  Requirements (ToChartRequirements d).1
  = [mkUnresolved "envoy" "https://example.com/charts" "*"]
  /\ deps (ToChartRequirements d).2 !! "envoy"
     = Some (mkUnresolved "envoy" "https://example.com/charts" EmptyString).
Proof. vm_compute. done. Qed.

(** ** Classification of a chart reference *)

(** C4, as the code has it. A reference that is not local and whose split at
    ["/"] has not exactly two pieces makes [resolveRemoteChart] panic with
    the message "unsupported format of chart name: " followed by the
    reference; no error is returned. A reference that is not local and splits
    into exactly two pieces is returned as remote, whatever the pieces. *)
Theorem resolveRemoteChart_malformed_panics :
  forall (E : Externals) (repoAndChart : string),
    isLocalChart repoAndChart = false ->
    (length (Split repoAndChart "/") <> 2 ->
     resolveRemoteChart repoAndChart
     = Panicked (PanicMsg ("unsupported format of chart name: " ++ repoAndChart)))
    /\ (forall repo chart,
          Split repoAndChart "/" = [repo; chart] ->
          resolveRemoteChart repoAndChart = Returned (repo, chart, true)).
Proof.
  intros E s Hlocal. unfold resolveRemoteChart. rewrite Hlocal. split.
  - intros Hlen. apply Nat.eqb_neq in Hlen. by rewrite Hlen.
  - intros repo chart Hsplit. by rewrite Hsplit.
Qed.

Lemma resolveRemoteChart_malformed_panics_witness :
  @resolveRemoteChart Demo.externals "a/b/c"
  = Panicked (PanicMsg "unsupported format of chart name: a/b/c")
  /\ @resolveRemoteChart Demo.externals "myrepo/"
     = Returned ("myrepo", EmptyString, true).
Proof.
  split.
  - apply (proj1 (resolveRemoteChart_malformed_panics Demo.externals "a/b/c" eq_refl)).
    simpl. lia.
  - apply (proj2 (resolveRemoteChart_malformed_panics Demo.externals "myrepo/" eq_refl)).
    reflexivity.
Defined.

(** C4, as the specification states it, fails: the reference ["a/b/c"] is not
    local, splits into three pieces, and the classification panics. *)
Lemma resolveRemoteChart_three_segments_panic :
  @isLocalChart Demo.externals "a/b/c" = false
  /\ Split "a/b/c" "/" = ["a"; "b"; "c"]
  /\ @resolveRemoteChart Demo.externals "a/b/c"
     = Panicked (PanicMsg "unsupported format of chart name: a/b/c").
Proof. repeat split. Qed.

Example resolveRemoteChart_remote :
  @resolveRemoteChart Demo.externals "stable/envoy" = Returned ("stable", "envoy", true).
Proof. reflexivity. Qed.

Example resolveRemoteChart_local :
  @resolveRemoteChart Demo.externals "./local/app" = Returned (EmptyString, EmptyString, false).
Proof. reflexivity. Qed.

(** ** The lock file *)

(** C1, as the code has it. When the read of the lock file reports that the
    file does not exist, [Resolve] returns a nil set and no error, and TRUE
    as the flag that the lock file exists. *)
Theorem Resolve_missing_lock_reports_true :
  forall (E : Externals) (m : chartDependencyManager) (unresolved : UnresolvedDependencies)
         (w w' : world) (data : bytes) (err : error),
    readFile m (lockFileName m) w = (Returned (data, Some err), w') ->
    IsNotExist err = true ->
    Resolve m unresolved w = (Returned (None, true, None), w').
Proof.
  intros E m unresolved w w' data err Hread Hne.
  unfold Resolve, readBytes, bind. rewrite Hread. simpl. by rewrite Hne.
Qed.

Lemma Resolve_missing_lock_reports_true_witness :
  @Resolve Demo.externals (NewChartDependencyManager "helmfile")
    (mkUnresolvedDependencies ∅) Demo.emptyWorld
  = (Returned (None, true, None), Demo.emptyWorld).
Proof.
  apply (Resolve_missing_lock_reports_true Demo.externals
           (NewChartDependencyManager "helmfile") (mkUnresolvedDependencies ∅)
           Demo.emptyWorld Demo.emptyWorld None
           (PathError "open" "helmfile.lock" ENOENT)).
  - vm_compute. reflexivity.
  - reflexivity.
Defined.

(** ** Scanning the releases *)

Section Scan.

Context `{E : Externals}.
Implicit Types (repoToURL : gmap string string) (r : ReleaseSpec.t)
  (rs : list ReleaseSpec.t) (u : UnresolvedDependencies).

Lemma scanReleases_cons repoToURL r rs u :
  scanReleases repoToURL (r :: rs) u
  = match managedChart repoToURL r with
    | Panicked p => Panicked p
    | Returned None => scanReleases repoToURL rs u
    | Returned (Some (chart, url)) =>
        match Add chart url (ReleaseSpec.Version r) u with
        | (Some err, u') => Returned (Some err, u')
        | (None, u') => scanReleases repoToURL rs u'
        end
    end.
Proof.
  simpl. unfold managedChart.
  destruct (resolveRemoteChart (ReleaseSpec.Chart r)) as [[[repo chart] ok]|p]; [|done].
  destruct ok; simpl; [|done].
  by destruct (repoToURL !! repo).
Qed.

Lemma scanReleases_app repoToURL rs1 rs2 u :
  scanReleases repoToURL (rs1 ++ rs2)%list u
  = match scanReleases repoToURL rs1 u with
    | Returned (None, u') => scanReleases repoToURL rs2 u'
    | other => other
    end.
Proof.
  revert u. induction rs1 as [|r rs1 IH]; intros u; [done|].
  rewrite <- app_comm_cons, !scanReleases_cons.
  destruct (managedChart repoToURL r) as [[[chart url]|]|p]; [|by apply IH|done].
  destruct (Add chart url (ReleaseSpec.Version r) u) as [[err|] u']; [done|by apply IH].
Qed.

(** A release with a remote reference whose alias is not mapped is one the
    loops skip. *)
Lemma managedChart_unmapped repoToURL r alias name :
  resolveRemoteChart (ReleaseSpec.Chart r) = Returned (alias, name, true) ->
  repoToURL !! alias = None ->
  managedChart repoToURL r = Returned None.
Proof. intros Hremote Hnone. unfold managedChart. by rewrite Hremote, Hnone. Qed.

(** A scan that returns a set has classified every release. *)
Lemma scanReleases_ok_classified repoToURL rs u u' :
  scanReleases repoToURL rs u = Returned (None, u') ->
  Forall (fun r => exists x, managedChart repoToURL r = Returned x) rs.
Proof.
  revert u. induction rs as [|r rs IH]; intros u; [constructor|].
  rewrite scanReleases_cons.
  destruct (managedChart repoToURL r) as [[[chart url]|]|p] eqn:Hm; [| |done].
  - destruct (Add chart url (ReleaseSpec.Version r) u) as [[err|] u1]; [done|].
    intros Hscan. constructor; eauto.
  - intros Hscan. constructor; eauto.
Qed.

(** A scan of releases that are all skipped returns the set it started
    from. *)
Lemma scanReleases_all_skipped repoToURL rs u :
  Forall (fun r => managedChart repoToURL r = Returned None) rs ->
  scanReleases repoToURL rs u = Returned (None, u).
Proof.
  induction 1 as [|r rs Hr _ IH]; [done|].
  by rewrite scanReleases_cons, Hr.
Qed.

(** Releases that are all classified are all skipped, or one is managed. *)
Lemma classified_skipped_or_managed repoToURL rs :
  Forall (fun r => exists x, managedChart repoToURL r = Returned x) rs ->
  Forall (fun r => managedChart repoToURL r = Returned None) rs
  \/ Exists (fun r => exists cu, managedChart repoToURL r = Returned (Some cu)) rs.
Proof.
  induction 1 as [|r rs [[cu|] Hr] _ [IH|IH]].
  - left. constructor.
  - right. constructor. eauto.
  - right. constructor. eauto.
  - left. by constructor.
  - right. by apply Exists_cons_tl.
Qed.

(** A scan that starts from the empty set and returns a set that is not
    empty has met a managed release. *)
Lemma scanReleases_nonempty_managed repoToURL rs u' :
  scanReleases repoToURL rs (mkUnresolvedDependencies ∅) = Returned (None, u') ->
  size (deps u') <> 0 ->
  Forall (fun r => exists x, managedChart repoToURL r = Returned x) rs
  /\ Exists (fun r => exists cu, managedChart repoToURL r = Returned (Some cu)) rs.
Proof.
  intros Hscan Hsize.
  pose proof (scanReleases_ok_classified _ _ _ _ Hscan) as Hall.
  split; [done|].
  destruct (classified_skipped_or_managed _ _ Hall) as [Hskip|Hex]; [|done].
  rewrite (scanReleases_all_skipped _ _ _ Hskip) in Hscan.
  injection Hscan as <-. simpl in Hsize. by rewrite map_size_empty in Hsize.
Qed.

End Scan.

(** C9. A release with a reference of remote form whose alias is not in the
    map from alias to URL is left out by the scan: scanned alone it adds
    nothing and gives no error, and the scan of a document that holds it
    returns what the scan of the document without it returns. *)
Theorem getUnresolvedDependenciess_skips_unmapped_alias :
  forall (E : Externals) (w : world) (st : loc) (s : HelmState)
         (before after : list ReleaseSpec.t) (r : ReleaseSpec.t) (alias name : string),
    structs w !! st = Some s ->
    arrays w !! Releases s = Some (before ++ r :: after)%list ->
    resolveRemoteChart (ReleaseSpec.Chart r) = Returned (alias, name, true) ->
    buildRepoToURL (Repositories s) !! alias = None ->
    (forall u, scanReleases (buildRepoToURL (Repositories s)) [r] u = Returned (None, u))
    /\ (getUnresolvedDependenciess st w).1
       = (getUnresolvedDependenciess st
            (set_arrays (<[Releases s := (before ++ after)%list]> (arrays w)) w)).1.
Proof.
  intros E w st s before after r alias name Hst Harr Hremote Hnone.
  pose proof (managedChart_unmapped _ _ _ _ Hremote Hnone) as Hskip.
  split.
  - intros u. by rewrite scanReleases_cons, Hskip.
  - unfold getUnresolvedDependenciess, bind, load, slice_elems, lift. simpl.
    rewrite Hst. unfold set_arrays at 1. simpl.
    rewrite Harr, lookup_insert_eq. simpl.
    rewrite !scanReleases_app.
    destruct (scanReleases _ before _) as [[[err|] u1]|p]; simpl; try done.
    rewrite Hremote. simpl. rewrite Hnone.
    by destruct (scanReleases _ after _) as [[[err|] u2]|p].
Qed.

(** ** The world *)

Lemma set_arrays_id (w : world) (a : loc) (l : list ReleaseSpec.t) :
  arrays w !! a = Some l -> set_arrays (<[a := l]> (arrays w)) w = w.
Proof.
  intros Ha. destruct w as [f dr dw st ar]. unfold set_arrays. simpl in *.
  f_equal. by apply insert_id.
Qed.

Lemma set_arrays_twice (w : world) (x y : gmap loc (list ReleaseSpec.t)) :
  set_arrays x (set_arrays y w) = set_arrays x w.
Proof. reflexivity. Qed.

(** ** The merge loop *)

Section Merge.

Context `{E : Externals}.
Implicit Types (repoToURL : gmap string string) (r : ReleaseSpec.t)
  (rs : list ReleaseSpec.t) (resolved : option ResolvedDependencies).

(** The loop of the code, which works on the backing array in the heap,
    does to the array what [mergeList] does to a list. [pre] is the part of
    the array the loop has gone through. *)
Lemma mergeReleases_mergeList repoToURL resolved (a : loc) rs :
  forall (pre : list ReleaseSpec.t) (w : world),
    arrays w !! a = Some (pre ++ rs)%list ->
    mergeReleases repoToURL resolved a (seq (length pre) (length rs)) w
    = ((mergeList repoToURL resolved rs).1,
       set_arrays (<[a := (pre ++ (mergeList repoToURL resolved rs).2)%list]> (arrays w)) w).
Proof.
  induction rs as [|r rs IH]; intros pre w Harr.
  - simpl. unfold ret. by rewrite set_arrays_id.
  - assert (Hnext : forall x, arrays w !! a = Some (pre ++ r :: rs)%list ->
              seq (S (length pre)) (length rs) = seq (length (pre ++ [x])%list) (length rs)).
    { intros x _. by rewrite length_app, Nat.add_comm. }
    cbn [length seq mergeReleases mergeList].
    unfold bind at 1. unfold slice_get. rewrite Harr. cbn [default from_option id].
    rewrite list_lookup_middle by done.
    unfold bind at 1. unfold lift at 1. unfold managedChart.
    destruct (resolveRemoteChart (ReleaseSpec.Chart r)) as [[[repo chart] ok]|p].
    2:{ cbn. by rewrite set_arrays_id. }
    destruct ok; cbn [negb].
    2:{ rewrite (Hnext r Harr), (IH (pre ++ [r])%list w).
        - destruct (mergeList repoToURL resolved rs) as [o l]. cbn.
          by rewrite <- app_assoc.
        - by rewrite <- app_assoc. }
    cbn [fst snd].
    destruct (repoToURL !! repo) as [url|].
    2:{ rewrite (Hnext r Harr), (IH (pre ++ [r])%list w).
        - destruct (mergeList repoToURL resolved rs) as [o l]. cbn.
          by rewrite <- app_assoc.
        - by rewrite <- app_assoc. }
    unfold bind at 1. unfold lift at 1.
    destruct (Get resolved chart) as [[ver [err|]]|p].
    + cbn. by rewrite set_arrays_id.
    + unfold bind at 1. unfold slice_set_version. rewrite Harr.
      rewrite list_lookup_middle by done.
      set (r' := ReleaseSpec.setVersion ver r).
      rewrite (Hnext r' Harr).
      rewrite (IH (pre ++ [r'])%list).
      * destruct (mergeList repoToURL resolved rs) as [o l]. cbn.
        rewrite set_arrays_twice. unfold set_arrays. cbn.
        by rewrite insert_insert_eq, <- app_assoc.
      * unfold set_arrays. cbn. rewrite lookup_insert_eq.
        rewrite insert_app_r_alt by done. rewrite Nat.sub_diag. cbn.
        by rewrite <- app_assoc.
    + cbn. by rewrite set_arrays_id.
Qed.

(** With a nil resolved set, the loop panics at the first managed release. *)
Lemma mergeList_nil_resolved repoToURL rs :
  Forall (fun r => exists x, managedChart repoToURL r = Returned x) rs ->
  Exists (fun r => exists cu, managedChart repoToURL r = Returned (Some cu)) rs ->
  mergeList repoToURL None rs = (Panicked NilDereference, rs).
Proof.
  induction 1 as [|r rs [[[chart url]|] Hr] Hall IH]; intros Hex.
  - by apply Exists_nil in Hex.
  - simpl. by rewrite Hr.
  - simpl. rewrite Hr. apply Exists_cons in Hex as [[cu Hcu]|Hex]; [congruence|].
    by rewrite (IH Hex).
Qed.

(** With a resolved set that lacks the entry of a managed release, the loop
    returns the error of [Get] for the first such release. *)
Lemma mergeList_missing_entry repoToURL (rd : ResolvedDependencies) rs :
  Forall (fun r => exists x, managedChart repoToURL r = Returned x) rs ->
  Exists (fun r => exists chart url,
            managedChart repoToURL r = Returned (Some (chart, url))
            /\ rdeps rd !! chart = None) rs ->
  exists chart,
    (mergeList repoToURL (Some rd) rs).1 = Returned (Some (not_found chart))
    /\ rdeps rd !! chart = None
    /\ exists r url, r ∈ rs /\ managedChart repoToURL r = Returned (Some (chart, url)).
Proof.
  induction 1 as [|r rs [x Hr] Hall IH]; intros Hex.
  - by apply Exists_nil in Hex.
  - assert (Htail : Exists (fun r => exists chart url,
                        managedChart repoToURL r = Returned (Some (chart, url))
                        /\ rdeps rd !! chart = None) rs ->
              exists chart,
                (let '(o, l) := mergeList repoToURL (Some rd) rs in o)
                = Returned (Some (not_found chart))
                /\ rdeps rd !! chart = None
                /\ exists r0 url, r0 ∈ r :: rs
                     /\ managedChart repoToURL r0 = Returned (Some (chart, url))).
    { intros Hex'. destruct (IH Hex') as (chart & Hres & Hnone & r0 & url & Hin & Hm).
      exists chart. destruct (mergeList repoToURL (Some rd) rs) as [o l].
      split; [done|]. split; [done|]. exists r0, url. split; [by right|done]. }
    simpl. rewrite Hr. destruct x as [[chart url]|].
    + destruct (rdeps rd !! chart) as [dep|] eqn:Hget.
      * apply Exists_cons in Hex as [(chart' & url' & Hm & Hnone)|Hex].
        { rewrite Hr in Hm. injection Hm as <- <-. congruence. }
        destruct (Htail Hex) as (c & Hres & Hrest). exists c.
        destruct (mergeList repoToURL (Some rd) rs) as [o l]. by split.
      * exists chart. simpl. split; [done|]. split; [done|].
        exists r, url. split; [by left|done].
    + apply Exists_cons in Hex as [(chart' & url' & Hm & Hnone)|Hex]; [congruence|].
      destruct (Htail Hex) as (c & Hres & Hrest). exists c.
      destruct (mergeList repoToURL (Some rd) rs) as [o l]. by split.
Qed.

(** When the loop returns no error, it has given every managed release the
    version of its entry, and every managed release has an entry. *)
Lemma mergeList_ok repoToURL (rd : ResolvedDependencies) rs l :
  mergeList repoToURL (Some rd) rs = (Returned None, l) ->
  l = map (mergedRelease repoToURL rd) rs
  /\ Forall (fun r => forall chart url,
               managedChart repoToURL r = Returned (Some (chart, url)) ->
               is_Some (rdeps rd !! chart)) rs.
Proof.
  revert l. induction rs as [|r rs IH]; intros l.
  - simpl. intros [= <-]. split; [done|constructor].
  - simpl. unfold mergedRelease.
    destruct (managedChart repoToURL r) as [[[chart url]|]|p] eqn:Hm; [| |done].
    + destruct (rdeps rd !! chart) as [dep|] eqn:Hget; [|done].
      destruct (mergeList repoToURL (Some rd) rs) as [o l'].
      intros [= -> <-]. destruct (IH l' eq_refl) as [-> Hall].
      split; [done|]. constructor; [|done].
      intros chart' url' Hm'. rewrite Hm in Hm'. injection Hm' as <- <-.
      by rewrite Hget.
    + destruct (mergeList repoToURL (Some rd) rs) as [o l'].
      intros [= -> <-]. destruct (IH l' eq_refl) as [-> Hall].
      split; [done|]. constructor; [|done]. intros chart url. by rewrite Hm.
Qed.

(** [resolveDependencies] once [Resolve] has returned: it copies the struct
    to a fresh location and runs the loop on the backing array that the copy
    shares with the original. *)
Lemma resolveDependencies_run (st : loc) (depMan : chartDependencyManager)
    (unresolved : UnresolvedDependencies) resolved (w w1 : world)
    (s : HelmState) rs :
  Resolve depMan unresolved w = (Returned (resolved, true, None), w1) ->
  structs w1 !! st = Some s ->
  arrays w1 !! Releases s = Some rs ->
  let updated := fresh (dom (structs w1)) in
  let merged := mergeList (buildRepoToURL (Repositories s)) resolved rs in
  let w' := mkWorld (files w1) (deny_read w1) (deny_write w1)
              (<[updated := s]> (structs w1))
              (<[Releases s := merged.2]> (arrays w1)) in
  resolveDependencies st depMan unresolved w
  = (match merged.1 with
     | Returned (Some err) => Returned (None, Some err)
     | Returned None => Returned (Some updated, None)
     | Panicked p => Panicked p
     end, w').
Proof.
  intros HResolve Hst Harr updated merged w'.
  unfold resolveDependencies. unfold bind at 1. rewrite HResolve. cbn [negb].
  unfold bind at 1. unfold load. rewrite Hst.
  unfold bind at 1. unfold alloc. fold updated.
  unfold bind at 1. unfold slice_len. cbn [arrays set_structs].
  rewrite Harr. cbn [default from_option id].
  unfold bind.
  pose proof (mergeReleases_mergeList (buildRepoToURL (Repositories s)) resolved
                (Releases s) rs [] (set_structs (<[updated:=s]> (structs w1)) w1)) as Hloop.
  cbn [length app] in Hloop. rewrite Hloop by done. fold merged.
  subst w'. unfold set_arrays, set_structs. cbn.
  by destruct merged.1 as [[err|]|p].
Qed.

End Merge.

Section MergeFacts.

Context `{E : Externals}.

Lemma managedChart_classified (repoToURL : gmap string string) (r : ReleaseSpec.t) :
  (exists x, resolveRemoteChart (ReleaseSpec.Chart r) = Returned x) ->
  exists y, managedChart repoToURL r = Returned y.
Proof.
  intros [[[repo chart] ok] Hx]. unfold managedChart. rewrite Hx.
  destruct ok; simpl; [|eauto]. destruct (repoToURL !! repo); eauto.
Qed.

Lemma managedChart_mapped (repoToURL : gmap string string) (r : ReleaseSpec.t)
    (alias chart url : string) :
  resolveRemoteChart (ReleaseSpec.Chart r) = Returned (alias, chart, true) ->
  repoToURL !! alias = Some url ->
  managedChart repoToURL r = Returned (Some (chart, url)).
Proof. intros Hx Hurl. unfold managedChart. by rewrite Hx, Hurl. Qed.

(** The manager of [NewChartDependencyManager] on a world without the lock
    file. *)
Lemma Resolve_default_missing (name : string) (unresolved : UnresolvedDependencies)
    (w : world) :
  files w !! (name ++ ".lock") = None ->
  deny_read w !! (name ++ ".lock") = None ->
  Resolve (NewChartDependencyManager name) unresolved w = (Returned (None, true, None), w).
Proof.
  intros Hfile Hdeny. unfold Resolve, readBytes, bind, lockFileName. simpl.
  unfold ioutil_ReadFile. by rewrite Hdeny, Hfile.
Qed.

(** What a scan that returns a set has done. *)
Lemma getUnresolvedDependenciess_ok (st : loc) (w w0 : world) (filename : string)
    (u : UnresolvedDependencies) :
  getUnresolvedDependenciess st w = (Returned (filename, Some u, None), w0) ->
  w0 = w
  /\ exists s,
       structs w !! st = Some s
       /\ scanReleases (buildRepoToURL (Repositories s))
            (default [] (arrays w !! Releases s)) (mkUnresolvedDependencies ∅)
          = Returned (None, u)
       /\ filename
          = TrimSuffix (TrimSuffix (TrimSuffix (filepath_Base (FilePath s)) ".gotmpl")
                          ".yaml") ".yml".
Proof.
  unfold getUnresolvedDependenciess, bind, load, slice_elems, lift.
  destruct (structs w !! st) as [s|]; [|done].
  destruct (scanReleases _ _ _) as [[[err|] u']|p] eqn:Hloop; [done| |done].
  unfold ret. intros [= <- <- <-]. split; [done|]. by exists s.
Qed.

End MergeFacts.

(** C2, as the code has it. For a document whose scan returns a set that is
    not empty, that is, one with at least one release under dependency
    management, and a world without the lock file of the document,
    [mergeLockedDependencies] does not return the document: [Resolve]
    reports a nil set with the flag TRUE, and the merge loop panics when it
    dereferences the nil set at the first managed release. Files and releases
    are as before. *)
Theorem mergeLockedDependencies_missing_lock_panics :
  forall (E : Externals) (st : loc) (w w0 : world) (filename : string)
         (u : UnresolvedDependencies),
    getUnresolvedDependenciess st w = (Returned (filename, Some u, None), w0) ->
    size (deps u) <> 0 ->
    files w !! (filename ++ ".lock") = None ->
    deny_read w !! (filename ++ ".lock") = None ->
    exists w',
      mergeLockedDependencies st w = (Panicked NilDereference, w')
      /\ files w' = files w /\ arrays w' = arrays w.
Proof.
  intros E st w w0 filename u Hscan Hsize Hfile Hdeny.
  destruct (getUnresolvedDependenciess_ok _ _ _ _ _ Hscan) as (-> & s & Hst & Hloop & Hname).
  destruct (arrays w !! Releases s) as [rs|] eqn:Harr.
  2:{ simpl in Hloop. injection Hloop as <-. simpl in Hsize.
      by rewrite map_size_empty in Hsize. }
  simpl in Hloop.
  destruct (scanReleases_nonempty_managed _ _ _ Hloop Hsize) as [Hall Hex].
  unfold mergeLockedDependencies. unfold bind at 1. rewrite Hscan.
  apply Nat.eqb_neq in Hsize. rewrite Hsize.
  pose proof (Resolve_default_missing filename u w Hfile Hdeny) as HResolve.
  rewrite (resolveDependencies_run st _ u None w w s rs HResolve Hst Harr).
  rewrite (mergeList_nil_resolved _ _ Hall Hex). cbn [fst snd].
  eexists. split; [reflexivity|]. split; [done|]. cbn [arrays].
  by apply insert_id.
Qed.

Lemma mergeLockedDependencies_missing_lock_panics_witness :
  exists w',
    @mergeLockedDependencies Demo.externals 1%positive (Demo.worldOf ∅ Demo.releases)
    = (Panicked NilDereference, w')
    /\ files w' = files (Demo.worldOf ∅ Demo.releases)
    /\ arrays w' = arrays (Demo.worldOf ∅ Demo.releases).
Proof.
  apply (mergeLockedDependencies_missing_lock_panics Demo.externals 1%positive
           (Demo.worldOf ∅ Demo.releases) (Demo.worldOf ∅ Demo.releases)
           "helmfile" Demo.scanned).
  - vm_compute. reflexivity.
  - vm_compute. discriminate.
  - vm_compute. reflexivity.
  - vm_compute. reflexivity.
Defined.

(** C3, as the code has it. When the merge succeeds, the document returned
    is a copy of the struct at a new location, and its releases carry the
    resolved versions; the copy holds the same slice header as the original,
    so the releases of the original document are the same array and carry
    the resolved versions too. *)
Theorem resolveDependencies_shares_releases :
  forall (E : Externals) (st : loc) (depMan : chartDependencyManager)
         (unresolved : UnresolvedDependencies) (w w1 w' : world)
         (rd : ResolvedDependencies) (s : HelmState) (rs : list ReleaseSpec.t)
         (updated : loc),
    Resolve depMan unresolved w = (Returned (Some rd, true, None), w1) ->
    structs w1 !! st = Some s ->
    arrays w1 !! Releases s = Some rs ->
    resolveDependencies st depMan unresolved w = (Returned (Some updated, None), w') ->
    updated <> st
    /\ structs w' !! updated = Some s
    /\ structs w' !! st = Some s
    /\ arrays w' !! Releases s
       = Some (map (mergedRelease (buildRepoToURL (Repositories s)) rd) rs).
Proof.
  intros E st depMan unresolved w w1 w' rd s rs updated HResolve Hst Harr.
  rewrite (resolveDependencies_run st depMan unresolved (Some rd) w w1 s rs HResolve Hst Harr).
  destruct (mergeList (buildRepoToURL (Repositories s)) (Some rd) rs) as [o l] eqn:Hmerge.
  cbn [fst snd]. destruct o as [[err|]|p]; [done| |done].
  intros [= <- <-]. cbn [structs arrays].
  assert (Hfresh : fresh (dom (structs w1)) <> st).
  { intros Heq. apply (is_fresh (dom (structs w1))). rewrite Heq.
    apply elem_of_dom. by exists s. }
  split; [done|]. split; [by apply lookup_insert_eq|].
  split; [by rewrite lookup_insert_ne|].
  rewrite lookup_insert_eq. by destruct (mergeList_ok _ _ _ _ Hmerge) as [-> _].
Qed.

Lemma resolveDependencies_shares_releases_witness :
  let w := Demo.worldOf {[ "helmfile.lock" := Demo.lockOfBoth ]} Demo.releases in
  let run := @resolveDependencies Demo.externals 1%positive
               (NewChartDependencyManager "helmfile") Demo.scanned w in
  2%positive <> 1%positive
  /\ structs run.2 !! 2%positive = Some Demo.document
  /\ structs run.2 !! 1%positive = Some Demo.document
  /\ arrays run.2 !! Releases Demo.document
     = Some (map (@mergedRelease Demo.externals
                    (buildRepoToURL (Repositories Demo.document)) Demo.resolvedBoth)
               Demo.releases).
Proof.
  intros w run.
  apply (resolveDependencies_shares_releases Demo.externals 1%positive
           (NewChartDependencyManager "helmfile") Demo.scanned w w run.2
           Demo.resolvedBoth Demo.document Demo.releases 2%positive).
  - vm_compute. reflexivity.
  - vm_compute. reflexivity.
  - vm_compute. reflexivity.
  - vm_compute. reflexivity.
Defined.

(** The releases of the original document before and after the merge: the
    versions of the managed releases have been overwritten. *)
Example resolveDependencies_overwrites_original :
  let w := Demo.worldOf {[ "helmfile.lock" := Demo.lockOfBoth ]} Demo.releases in
  let run := @resolveDependencies Demo.externals 1%positive
               (NewChartDependencyManager "helmfile") Demo.scanned w in
  run.1 = Returned (Some 2%positive, None)
  /\ (Releases <$> structs w !! 1%positive) = Some 7%positive
  /\ (Releases <$> structs run.2 !! 1%positive) = Some 7%positive
  /\ arrays w !! 7%positive
     = Some [ReleaseSpec.mk "myrepo/envoy" EmptyString;
             ReleaseSpec.mk "myrepo/nginx" ">=1.0";
             ReleaseSpec.mk "./local/app" EmptyString]
  /\ arrays run.2 !! 7%positive
     = Some [ReleaseSpec.mk "myrepo/envoy" "1.2.3";
             ReleaseSpec.mk "myrepo/nginx" "1.4.0";
             ReleaseSpec.mk "./local/app" EmptyString].
Proof. vm_compute. done. Qed.

Section MergeMissing.

Context `{E : Externals}.
Implicit Types (repoToURL : gmap string string) (r : ReleaseSpec.t)
  (rd : ResolvedDependencies).



End MergeMissing.




Example resolveDependencies_missing_nginx :
  (@resolveDependencies Demo.externals 1%positive
     (NewChartDependencyManager "helmfile") Demo.scanned
     (Demo.worldOf {[ "helmfile.lock" := Demo.lockOfEnvoy ]} Demo.releases)).1
  = Returned (None, Some (not_found "nginx")).
Proof. vm_compute. reflexivity. Qed.

Lemma getUnresolvedDependenciess_skips_unmapped_alias_witness :
  let w := Demo.worldOf ∅ [Demo.envoy; Demo.foo; Demo.localApp] in
  (forall u, @scanReleases Demo.externals (buildRepoToURL (Repositories Demo.document))
               [Demo.foo] u = Returned (None, u))
  /\ (@getUnresolvedDependenciess Demo.externals 1%positive w).1
     = (@getUnresolvedDependenciess Demo.externals 1%positive
          (set_arrays (<[Releases Demo.document := [Demo.envoy; Demo.localApp]]> (arrays w)) w)).1.
Proof.
  intros w.
  apply (getUnresolvedDependenciess_skips_unmapped_alias Demo.externals w 1%positive
           Demo.document [Demo.envoy] [Demo.localApp] Demo.foo "otherrepo" "foo").
  - vm_compute. reflexivity.
  - vm_compute. reflexivity.
  - vm_compute. reflexivity.
  - vm_compute. reflexivity.
Defined.

Example scan_unknown_alias :
  (@getUnresolvedDependenciess Demo.externals 1%positive
     (Demo.worldOf ∅ [Demo.foo])).1
  = Returned ("helmfile", Some (mkUnresolvedDependencies ∅), None).
Proof. vm_compute. reflexivity. Qed.

(** ** The lock protocol of [Update] *)

Section UpdateProtocol.

Context `{E : Externals}.

Lemma Update_phases (m : chartDependencyManager) (shell : DependencyUpdater)
    (wd : string) (unresolved : UnresolvedDependencies) (w : world) :
  Update m shell wd unresolved w
  = (let* err := UpdateStage m wd unresolved in
     match err with
     | Some err => ret (None, Some err)
     | None =>
         let* err := UpdateDeps shell wd in
         match err with
         | Some err => ret (None, Some err)
         | None => UpdateCommit m wd unresolved
         end
     end) w.
Proof.
  unfold Update, UpdateStage, UpdateCommit, bind.
  destruct (writeBytes m (filepath_Join wd "Chart.yaml") _ w) as [[[err|]|p] w1]; try done.
  destruct (yaml_Marshal _) as [reqsContent [err|]]; try done.
  destruct (writeBytes m (filepath_Join wd "requirements.yaml") _ w1) as [[[err|]|p] w2];
    try done.
  destruct (readBytes m (lockFileName m) w2) as [[[lockFileContent err]|p] w3]; try done.
  destruct (match err with Some err0 => negb (IsNotExist err0) | None => false end) eqn:Hcond.
  { destruct err; done. }
  destruct lockFileContent as [c|]; [|done].
  by destruct (writeBytes m (filepath_Join wd "requirements.lock") (Some c) w3)
    as [[[err'|]|p] w4].
Qed.

(** The manager of [NewChartDependencyManager] on the file system of the
    world. *)
Lemma readBytes_default (name filename : string) (w : world) :
  readBytes (NewChartDependencyManager name) filename w
  = (Returned
       match deny_read w !! filename with
       | Some errno => (None, Some (PathError "open" filename errno))
       | None =>
           match files w !! filename with
           | Some content => (Some content, None)
           | None => (None, Some (PathError "open" filename ENOENT))
           end
       end, w).
Proof.
  unfold readBytes, bind. simpl. unfold ioutil_ReadFile.
  destruct (deny_read w !! filename); [done|]. by destruct (files w !! filename).
Qed.

Lemma writeBytes_default (name filename : string) (data : bytes) (w : world) :
  writeBytes (NewChartDependencyManager name) filename data w
  = match deny_write w !! filename with
    | Some errno => (Returned (Some (PathError "open" filename errno)), w)
    | None =>
        (Returned None,
         set_files (<[filename := default EmptyString data]> (files w)) w)
    end.
Proof.
  unfold writeBytes, bind. simpl. unfold ioutil_WriteFile.
  by destruct (deny_write w !! filename).
Qed.

(** A write leaves every other file as it is. *)
Lemma writeBytes_default_other (name filename other : string) (data : bytes)
    (w w1 : world) (o : outcome (option error)) :
  writeBytes (NewChartDependencyManager name) filename data w = (o, w1) ->
  filename <> other ->
  files w1 !! other = files w !! other.
Proof.
  rewrite writeBytes_default. intros Hw Hne.
  destruct (deny_write w !! filename); injection Hw as <- <-; [done|].
  cbn. by rewrite lookup_insert_ne.
Qed.

(** Before the call of the updater, [Update] does not panic and leaves the
    content of the lock file as it is. *)
Lemma UpdateStage_keeps_lock (name wd : string) (unresolved : UnresolvedDependencies)
    (w : world) :
  let m := NewChartDependencyManager name in
  filepath_Join wd "Chart.yaml" <> lockFileName m ->
  filepath_Join wd "requirements.yaml" <> lockFileName m ->
  exists (err : option error) (w1 : world),
    UpdateStage m wd unresolved w = (Returned err, w1)
    /\ files w1 !! lockFileName m = files w !! lockFileName m.
Proof.
  intros m Hchart Hreqs. subst m. unfold UpdateStage.
  unfold bind at 1. rewrite writeBytes_default.
  destruct (deny_write w !! _); [by eauto|].
  destruct (yaml_Marshal _) as [reqsContent [err|]].
  { unfold ret. eexists _, _. split; [reflexivity|]. cbn. by rewrite lookup_insert_ne. }
  unfold bind at 1. rewrite writeBytes_default.
  destruct (deny_write _ !! _).
  { unfold ret. eexists _, _. split; [reflexivity|]. cbn. by rewrite lookup_insert_ne. }
  set (w2 := set_files _ (set_files _ w)).
  assert (Hw2 : files w2 !! lockFileName (NewChartDependencyManager name)
                = files w !! lockFileName (NewChartDependencyManager name)).
  { subst w2. cbn. by rewrite !lookup_insert_ne. }
  rewrite <- Hw2. clearbody w2. clear Hw2.
  unfold bind at 1. rewrite readBytes_default.
  destruct (deny_read w2 !! _) as [errno|].
  { destruct errno; cbn; unfold ret; by eauto. }
  destruct (files w2 !! lockFileName (NewChartDependencyManager name)) as [c|] eqn:Hlock.
  - cbn [negb IsNotExist]. rewrite writeBytes_default.
    destruct (deny_write w2 !! _); [by eauto|].
    eexists _, _. split; [reflexivity|]. cbn.
    destruct (decide (filepath_Join wd "requirements.lock"
                      = lockFileName (NewChartDependencyManager name))) as [->|Hne].
    + by rewrite lookup_insert_eq.
    + by rewrite lookup_insert_ne.
  - cbn. unfold ret. by eauto.
Qed.

End UpdateProtocol.

(** C5. With the workspace files apart from the lock file: the part of
    [Update] before the call of the updater leaves the content of the lock
    file as it is, whether it ends with an error (and then the updater is
    not called) or reaches the call. The updater is called once, on the world
    [w0] that this part has left, which does not depend on the updater. When
    that call fails, [Update] returns its error and the world is the one the
    call has left: [Update] writes nothing after it, so the lock file has
    the content it had before [Update], unless the updater itself has
    changed it. Only when that call returns without error does [Update] go
    on to the commit. *)
Theorem Update_commits_only_after_updater :
  forall (E : Externals) (name wd : string) (unresolved : UnresolvedDependencies)
         (w : world),
    let m := NewChartDependencyManager name in
    let lock := lockFileName m in
    filepath_Join wd "Chart.yaml" <> lock ->
    filepath_Join wd "requirements.yaml" <> lock ->
    exists (staged : option error) (w0 : world),
      files w0 !! lock = files w !! lock
      /\ (forall shell : DependencyUpdater,
            match staged with
            | Some err => Update m shell wd unresolved w = (Returned (None, Some err), w0)
            | None =>
                match UpdateDeps shell wd w0 with
                | (Returned (Some err), w1) =>
                    Update m shell wd unresolved w = (Returned (None, Some err), w1)
                | (Panicked p, w1) =>
                    Update m shell wd unresolved w = (Panicked p, w1)
                | (Returned None, w1) =>
                    Update m shell wd unresolved w = UpdateCommit m wd unresolved w1
                end
            end)
      /\ (forall (shell : DependencyUpdater) (err : error) (w1 : world),
            staged = None ->
            UpdateDeps shell wd w0 = (Returned (Some err), w1) ->
            files w1 !! lock = files w0 !! lock ->
            exists w',
              Update m shell wd unresolved w = (Returned (None, Some err), w')
              /\ files w' !! lock = files w !! lock).
Proof.
  intros E name wd unresolved w m lock Hchart Hreqs. subst m lock.
  destruct (UpdateStage_keeps_lock name wd unresolved w Hchart Hreqs)
    as (staged & w0 & Hstage & Hlock).
  exists staged, w0. split; [done|].
  assert (Hrun : forall shell : DependencyUpdater,
            match staged with
            | Some err =>
                Update (NewChartDependencyManager name) shell wd unresolved w
                = (Returned (None, Some err), w0)
            | None =>
                match UpdateDeps shell wd w0 with
                | (Returned (Some err), w1) =>
                    Update (NewChartDependencyManager name) shell wd unresolved w
                    = (Returned (None, Some err), w1)
                | (Panicked p, w1) =>
                    Update (NewChartDependencyManager name) shell wd unresolved w
                    = (Panicked p, w1)
                | (Returned None, w1) =>
                    Update (NewChartDependencyManager name) shell wd unresolved w
                    = UpdateCommit (NewChartDependencyManager name) wd unresolved w1
                end
            end).
  { intros shell.
    pose proof (Update_phases (NewChartDependencyManager name) shell wd unresolved w) as Heq.
    unfold bind at 1 in Heq. rewrite Hstage in Heq.
    destruct staged as [err|]; [exact Heq|].
    unfold bind at 1 in Heq.
    destruct (UpdateDeps shell wd w0) as [[[err|]|p] w1]; exact Heq. }
  split; [exact Hrun|].
  intros shell err w1 -> Hfail Hkept. specialize (Hrun shell). rewrite Hfail in Hrun.
  exists w1. split; [done|]. congruence.
Qed.

Lemma Update_commits_only_after_updater_witness :
  let w := Demo.worldOf {[ "helmfile.lock" := Demo.lockOfEnvoy ]} Demo.releases in
  let m := NewChartDependencyManager "helmfile" in
  exists (staged : option error) (w0 : world),
    files w0 !! lockFileName m = files w !! lockFileName m
    /\ (forall shell : DependencyUpdater,
          match staged with
          | Some err =>
              @Update Demo.externals m shell "/tmp/ws" Demo.scanned w
              = (Returned (None, Some err), w0)
          | None =>
              match UpdateDeps shell "/tmp/ws" w0 with
              | (Returned (Some err), w1) =>
                  @Update Demo.externals m shell "/tmp/ws" Demo.scanned w
                  = (Returned (None, Some err), w1)
              | (Panicked p, w1) =>
                  @Update Demo.externals m shell "/tmp/ws" Demo.scanned w = (Panicked p, w1)
              | (Returned None, w1) =>
                  @Update Demo.externals m shell "/tmp/ws" Demo.scanned w
                  = @UpdateCommit Demo.externals m "/tmp/ws" Demo.scanned w1
              end
          end)
    /\ (forall (shell : DependencyUpdater) (err : error) (w1 : world),
          staged = None ->
          UpdateDeps shell "/tmp/ws" w0 = (Returned (Some err), w1) ->
          files w1 !! lockFileName m = files w0 !! lockFileName m ->
          exists w',
            @Update Demo.externals m shell "/tmp/ws" Demo.scanned w
            = (Returned (None, Some err), w')
            /\ files w' !! lockFileName m = files w !! lockFileName m).
Proof.
  intros w m.
  apply (Update_commits_only_after_updater Demo.externals "helmfile" "/tmp/ws"
           Demo.scanned w).
  - vm_compute. discriminate.
  - vm_compute. discriminate.
Defined.

(** An updater that fails at its first call and succeeds at the next ones
    (it leaves a marker file): [Update] returns the error of the first call
    and the lock file keeps its content. *)
Example Update_flaky_updater_keeps_lock :
  let flaky := mkUpdater (fun wd w =>
                 match files w !! "/tmp/ws/called" with
                 | None =>
                     (Returned (Some (Errorf "first call fails")),
                      set_files (<["/tmp/ws/called" := EmptyString]> (files w)) w)
                 | Some _ =>
                     (Returned None,
                      set_files (<["/tmp/ws/requirements.lock" := Demo.lockOfBoth]>
                                   (files w)) w)
                 end) in
  let w := Demo.worldOf {[ "helmfile.lock" := Demo.lockOfEnvoy ]} Demo.releases in
  let run := @Update Demo.externals (NewChartDependencyManager "helmfile") flaky
               "/tmp/ws" Demo.scanned w in
  run.1 = Returned (None, Some (Errorf "first call fails"))
  /\ files run.2 !! "helmfile.lock" = Some Demo.lockOfEnvoy.
Proof. vm_compute. done. Qed.

Example Update_failing_updater :
  let w := Demo.worldOf {[ "helmfile.lock" := Demo.lockOfEnvoy ]} Demo.releases in
  let run := @Update Demo.externals (NewChartDependencyManager "helmfile")
               (Demo.failingUpdater "helm dependency update failed") "/tmp/ws"
               Demo.scanned w in
  run.1 = Returned (None, Some (Errorf "helm dependency update failed"))
  /\ files run.2 !! "helmfile.lock" = Some Demo.lockOfEnvoy
  /\ files run.2 !! "/tmp/ws/requirements.lock" = Some Demo.lockOfEnvoy
  /\ files run.2 !! "/tmp/ws/Chart.yaml" = Some ("name: helmfile" ++ nl).
Proof. vm_compute. done. Qed.

(** ** Validation of the lock comes after the commit *)

(** The loop of [Resolve] returns no error only for names that are pairwise
    distinct and new to the set. *)
Lemma addResolved_ok_NoDup (ds : list ResolvedChartDependency.t)
    (resolved : ResolvedDependencies) :
  (addResolved ds resolved).1 = None ->
  NoDup (map ResolvedChartDependency.ChartName ds)
  /\ Forall (fun d => rdeps resolved !! ResolvedChartDependency.ChartName d = None) ds.
Proof.
  revert resolved. induction ds as [|d ds IH]; intros resolved.
  - intros _. split; constructor.
  - simpl. unfold radd.
    destruct (rdeps resolved !! ResolvedChartDependency.ChartName d) eqn:Hd; [done|].
    intros Hok. destruct (IH _ Hok) as [Hnodup Hnew]. simpl in Hnew.
    assert (Hne : Forall (fun d' => ResolvedChartDependency.ChartName d
                                    <> ResolvedChartDependency.ChartName d') ds).
    { eapply Forall_impl; [exact Hnew|]. intros d' Hd' Heq. simpl in Hd'.
      by rewrite <- Heq, lookup_insert_eq in Hd'. }
    split.
    + constructor; [|done]. rewrite list_elem_of_fmap. intros (d' & Heq & Hin).
      rewrite Forall_forall in Hne. by apply (Hne d' Hin).
    + constructor; [done|].
      rewrite Forall_forall in Hnew, Hne. apply Forall_forall. intros d' Hin.
      specialize (Hnew d' Hin). specialize (Hne d' Hin). simpl in Hnew.
      by rewrite lookup_insert_ne in Hnew.
Qed.

Section CommitThenValidate.

Context `{E : Externals}.

Lemma Resolve_default_content (name : string) (unresolved : UnresolvedDependencies)
    (w : world) (c : string) :
  deny_read w !! (name ++ ".lock") = None ->
  files w !! (name ++ ".lock") = Some c ->
  exists exists_flag,
    Resolve (NewChartDependencyManager name) unresolved w
    = (Returned ((resolveContent c).1, exists_flag, (resolveContent c).2), w).
Proof.
  intros Hdeny Hfile. unfold Resolve. unfold bind at 1. rewrite readBytes_default.
  unfold lockFileName. cbn [Name NewChartDependencyManager].
  rewrite Hdeny, Hfile. unfold resolveContent.
  destruct (yaml_Unmarshal (Some c)) as [lockedReqs [err|]]; [by eauto|].
  destruct (addResolved _ _) as [[err|] resolved]; by eauto.
Qed.

(** Content that does not parse, or that names a chart twice, resolves to
    an error. *)
Lemma resolveContent_malformed (c : string) :
  (yaml_Unmarshal (Some c)).2 <> None
  \/ ~ NoDup (map ResolvedChartDependency.ChartName (Locked (yaml_Unmarshal (Some c)).1)) ->
  exists err, resolveContent c = (None, Some err).
Proof.
  unfold resolveContent. destruct (yaml_Unmarshal (Some c)) as [lockedReqs [err|]]; simpl.
  - by eauto.
  - intros [Hparse|Hdup]; [done|].
    destruct (addResolved _ _) as [[err|] resolved] eqn:Hadd; [by eauto|].
    contradict Hdup.
    apply (addResolved_ok_NoDup _ (mkResolvedDependencies ∅)). by rewrite Hadd.
Qed.

Lemma UpdateStage_no_faults (name wd : string) (unresolved : UnresolvedDependencies)
    (w : world) :
  deny_read w = ∅ ->
  deny_write w = ∅ ->
  (yaml_Marshal (ToChartRequirements unresolved).1).2 = None ->
  exists w1,
    UpdateStage (NewChartDependencyManager name) wd unresolved w = (Returned None, w1)
    /\ deny_read w1 = ∅ /\ deny_write w1 = ∅.
Proof.
  intros Hr Hw Hmarshal. unfold UpdateStage.
  unfold bind at 1. rewrite writeBytes_default, Hw, lookup_empty.
  destruct (yaml_Marshal _) as [reqsContent err]. simpl in Hmarshal. subst err.
  unfold bind at 1. rewrite writeBytes_default. cbn [deny_write set_files].
  rewrite Hw, lookup_empty.
  unfold bind at 1. rewrite readBytes_default. cbn [deny_read set_files].
  rewrite Hr, lookup_empty.
  destruct (files _ !! lockFileName _) as [c|].
  - cbn [negb IsNotExist]. rewrite writeBytes_default. cbn [deny_write set_files].
    rewrite Hw, lookup_empty. by eauto.
  - cbn. unfold ret. by eauto.
Qed.

Lemma UpdateCommit_default (name wd : string) (unresolved : UnresolvedDependencies)
    (w : world) (c : string) :
  deny_read w = ∅ ->
  deny_write w = ∅ ->
  files w !! filepath_Join wd "requirements.lock" = Some c ->
  UpdateCommit (NewChartDependencyManager name) wd unresolved w
  = (Returned (resolveContent c),
     set_files (<[name ++ ".lock" := c]> (files w)) w).
Proof.
  intros Hr Hw Hout. unfold UpdateCommit.
  unfold bind at 1. rewrite readBytes_default, Hr, lookup_empty, Hout.
  unfold bind at 1. rewrite writeBytes_default, Hw, lookup_empty.
  unfold lockFileName. cbn [Name NewChartDependencyManager default from_option id].
  unfold bind.
  destruct (Resolve_default_content name unresolved
              (set_files (<[name ++ ".lock" := c]> (files w)) w) c) as [flag ->].
  - cbn. by rewrite Hr, lookup_empty.
  - cbn. by rewrite lookup_insert_eq.
  - unfold ret. cbn. by destruct (resolveContent c).
Qed.

End CommitThenValidate.

Section RunOfUpdate.

Context `{E : Externals}.

(** The commit on the world the updater has left, when the lock of the
    workspace can be read and the lock file can be written and read. *)
Lemma UpdateCommit_run (name wd : string) (unresolved : UnresolvedDependencies)
    (w1 : world) (c : string) :
  deny_read w1 !! filepath_Join wd "requirements.lock" = None ->
  files w1 !! filepath_Join wd "requirements.lock" = Some c ->
  deny_write w1 !! (name ++ ".lock") = None ->
  deny_read w1 !! (name ++ ".lock") = None ->
  UpdateCommit (NewChartDependencyManager name) wd unresolved w1
  = (Returned (resolveContent c),
     set_files (<[name ++ ".lock" := c]> (files w1)) w1).
Proof.
  intros Hrout Hout Hwlock Hrlock. unfold UpdateCommit.
  unfold bind at 1. rewrite readBytes_default, Hrout, Hout.
  unfold bind at 1. rewrite writeBytes_default.
  unfold lockFileName. cbn [Name NewChartDependencyManager default from_option id].
  rewrite Hwlock. unfold bind.
  destruct (Resolve_default_content name unresolved
              (set_files (<[name ++ ".lock" := c]> (files w1)) w1) c) as [flag ->].
  - done.
  - cbn. by rewrite lookup_insert_eq.
  - unfold ret. cbn. by destruct (resolveContent c).
Qed.

(** A run of [Update] in which the workspace is prepared without error and
    the updater returns without error goes on with the commit. *)
Lemma Update_run_commit (m : chartDependencyManager) (shell : DependencyUpdater)
    (wd : string) (unresolved : UnresolvedDependencies) (w w0 w1 : world) :
  UpdateStage m wd unresolved w = (Returned None, w0) ->
  UpdateDeps shell wd w0 = (Returned None, w1) ->
  Update m shell wd unresolved w = UpdateCommit m wd unresolved w1.
Proof.
  intros Hstage Hshell. rewrite Update_phases. unfold bind at 1. rewrite Hstage.
  unfold bind at 1. by rewrite Hshell.
Qed.

End RunOfUpdate.

(** C10. Take a run of [Update] in which the workspace is prepared without
    error, leaving the world [w0], and the call of the updater on [w0]
    returns without error, leaving the world [w1] with [c] as the lock of the
    workspace, readable, and the lock file writable and readable. [Update]
    writes [c] to the lock file before it parses it: when [c] does not
    parse or names a chart twice, [Update] returns an error, and the world
    it ends in is [w1] with the lock file holding [c]. *)
Theorem Update_commits_before_validation :
  forall (E : Externals) (name wd : string) (shell : DependencyUpdater)
         (unresolved : UnresolvedDependencies) (w w0 w1 : world) (c : string),
    let m := NewChartDependencyManager name in
    UpdateStage m wd unresolved w = (Returned None, w0) ->
    UpdateDeps shell wd w0 = (Returned None, w1) ->
    deny_read w1 !! filepath_Join wd "requirements.lock" = None ->
    files w1 !! filepath_Join wd "requirements.lock" = Some c ->
    deny_write w1 !! lockFileName m = None ->
    deny_read w1 !! lockFileName m = None ->
    (yaml_Unmarshal (Some c)).2 <> None
    \/ ~ NoDup (map ResolvedChartDependency.ChartName
                  (Locked (yaml_Unmarshal (Some c)).1)) ->
    exists err w',
      Update m shell wd unresolved w = (Returned (None, Some err), w')
      /\ w' = set_files (<[lockFileName m := c]> (files w1)) w1
      /\ files w' !! lockFileName m = Some c.
Proof.
  intros E name wd shell unresolved w w0 w1 c m Hstage Hshell Hrout Hout Hwlock Hrlock Hbad.
  subst m. unfold lockFileName in *. cbn [Name NewChartDependencyManager] in *.
  rewrite (Update_run_commit _ shell wd unresolved w w0 w1 Hstage Hshell).
  rewrite (UpdateCommit_run name wd unresolved w1 c Hrout Hout Hwlock Hrlock).
  destruct (resolveContent_malformed c Hbad) as [err ->].
  exists err. eexists. split; [reflexivity|]. split; [done|].
  cbn. by rewrite lookup_insert_eq.
Qed.

Lemma Update_commits_before_validation_witness :
  let m := NewChartDependencyManager "helmfile" in
  let w := Demo.worldOf {[ "helmfile.lock" := Demo.lockOfEnvoy ]} Demo.releases in
  let w0 := (@UpdateStage Demo.externals m "/tmp/ws" Demo.scanned w).2 in
  let w1 := (UpdateDeps (Demo.writingUpdater "garbage") "/tmp/ws" w0).2 in
  exists err w',
    @Update Demo.externals m (Demo.writingUpdater "garbage") "/tmp/ws" Demo.scanned w
    = (Returned (None, Some err), w')
    /\ w' = set_files (<[lockFileName m := "garbage"]> (files w1)) w1
    /\ files w' !! lockFileName m = Some "garbage".
Proof.
  intros m w w0 w1.
  apply (Update_commits_before_validation Demo.externals "helmfile" "/tmp/ws"
           (Demo.writingUpdater "garbage") Demo.scanned w w0 w1 "garbage").
  - vm_compute. reflexivity.
  - vm_compute. reflexivity.
  - vm_compute. reflexivity.
  - vm_compute. reflexivity.
  - vm_compute. reflexivity.
  - vm_compute. reflexivity.
  - left. vm_compute. discriminate.
Defined.

(** An updater whose output depends on what it finds: it doubles the first
    line of the prior lock. [Update] commits the output, which names a chart
    twice, and returns the error of the duplicate. *)
Example Update_commits_output_of_reading_updater :
  let doubling := mkUpdater (fun wd w =>
                    match files w !! Demo.Join wd "requirements.lock" with
                    | Some prior =>
                        (Returned None,
                         set_files (<[Demo.Join wd "requirements.lock" := prior ++ prior]>
                                      (files w)) w)
                    | None => (Returned (Some (Errorf "no prior lock")), w)
                    end) in
  let w := Demo.worldOf {[ "helmfile.lock" := Demo.lockOfEnvoy ]} Demo.releases in
  let run := @Update Demo.externals (NewChartDependencyManager "helmfile") doubling
               "/tmp/ws" Demo.scanned w in
  run.1 = Returned (None, Some (Errorf ("duplicate chart dependency " ++ dquote
                                        ++ "envoy" ++ dquote)))
  /\ files run.2 !! "helmfile.lock" = Some (Demo.lockOfEnvoy ++ Demo.lockOfEnvoy).
Proof. vm_compute. done. Qed.

Example Update_commits_duplicate_names :
  let c := "envoy https://example.com/charts 1.2.3" ++ nl
           ++ "envoy https://example.com/charts 1.3.0" ++ nl in
  let run := @Update Demo.externals (NewChartDependencyManager "helmfile")
               (Demo.writingUpdater c) "/tmp/ws" Demo.scanned
               (Demo.worldOf {[ "helmfile.lock" := Demo.lockOfEnvoy ]} Demo.releases) in
  run.1 = Returned (None, Some (Errorf ("duplicate chart dependency " ++ dquote ++ "envoy" ++ dquote)))
  /\ files run.2 !! "helmfile.lock" = Some c.
Proof. vm_compute. done. Qed.

(** ** The merge as [mergeLockedDependencies] runs it *)

Section MergeLocked.

Context `{E : Externals}.

Lemma add_ok_keeps (dep : unresolvedChartDependency) (d d' : UnresolvedDependencies)
    (n : string) :
  add dep d = (None, d') ->
  is_Some (deps d !! n) ->
  is_Some (deps d' !! n).
Proof.
  intros Hadd Hn.
  assert (Hd' : deps d' = <[ChartName dep := dep]> (deps d)).
  { unfold add in Hadd. destruct (deps d !! ChartName dep).
    - destruct (_ || _); [done|]. by injection Hadd as <-.
    - by injection Hadd as <-. }
  rewrite Hd'. destruct (decide (ChartName dep = n)) as [<-|Hne].
  - rewrite lookup_insert_eq. by eexists.
  - by rewrite lookup_insert_ne.
Qed.

(** A scan that returns a set has put in it the chart of every managed
    release. *)
Lemma scanReleases_ok_contains (repoToURL : gmap string string)
    (rs : list ReleaseSpec.t) (u u' : UnresolvedDependencies) :
  scanReleases repoToURL rs u = Returned (None, u') ->
  (forall n, is_Some (deps u !! n) -> is_Some (deps u' !! n))
  /\ (forall r chart url,
        r ∈ rs ->
        managedChart repoToURL r = Returned (Some (chart, url)) ->
        is_Some (deps u' !! chart)).
Proof.
  revert u. induction rs as [|r rs IH]; intros u.
  - intros [= <-]. split; [done|]. intros r chart url Hin. by apply elem_of_nil in Hin.
  - rewrite scanReleases_cons.
    destruct (managedChart repoToURL r) as [[[chart url]|]|p] eqn:Hm; [| |done].
    + destruct (Add chart url (ReleaseSpec.Version r) u) as [[err|] u1] eqn:Hadd; [done|].
      intros Hscan. destruct (IH _ Hscan) as [Hkeep Hin]. unfold Add in Hadd. split.
      * intros n Hn. apply Hkeep. by eapply add_ok_keeps.
      * intros r0 chart0 url0 Hr0 Hm0. apply elem_of_cons in Hr0 as [->|Hr0].
        -- rewrite Hm in Hm0. injection Hm0 as <- <-. apply Hkeep.
           apply add_ok_lookup in Hadd. simpl in Hadd. by eexists.
        -- by eapply Hin.
    + intros Hscan. destruct (IH _ Hscan) as [Hkeep Hin]. split; [done|].
      intros r0 chart0 url0 Hr0 Hm0. apply elem_of_cons in Hr0 as [->|Hr0].
      * congruence.
      * by eapply Hin.
Qed.

(** The merge of a document that scans without error, against a lock file
    that resolves to a set without the entry of one of its managed releases,
    returns the error of [Get]: the scan has classified every reference. *)
Lemma mergeLockedDependencies_missing_entry (st : loc) (w w0 : world)
    (filename : string) (u : UnresolvedDependencies) (rd : ResolvedDependencies)
    (s : HelmState) (rs : list ReleaseSpec.t) (r : ReleaseSpec.t)
    (alias chart url : string) :
  getUnresolvedDependenciess st w = (Returned (filename, Some u, None), w0) ->
  Resolve (NewChartDependencyManager filename) u w = (Returned (Some rd, true, None), w) ->
  structs w !! st = Some s ->
  arrays w !! Releases s = Some rs ->
  r ∈ rs ->
  resolveRemoteChart (ReleaseSpec.Chart r) = Returned (alias, chart, true) ->
  buildRepoToURL (Repositories s) !! alias = Some url ->
  rdeps rd !! chart = None ->
  exists missing w',
    mergeLockedDependencies st w = (Returned (None, Some (not_found missing)), w')
    /\ rdeps rd !! missing = None.
Proof.
  intros Hscan HResolve Hst Harr Hin Hremote Hurl Hnone.
  destruct (getUnresolvedDependenciess_ok _ _ _ _ _ Hscan) as (-> & s' & Hst' & Hloop & _).
  rewrite Hst in Hst'. injection Hst' as <-. rewrite Harr in Hloop. simpl in Hloop.
  set (repoToURL := buildRepoToURL (Repositories s)) in *.
  pose proof (managedChart_mapped repoToURL r alias chart url Hremote Hurl) as Hm.
  pose proof (scanReleases_ok_classified _ _ _ _ Hloop) as Hall.
  destruct (scanReleases_ok_contains _ _ _ _ Hloop) as [_ Hcontains].
  assert (Hsize : size (deps u) <> 0).
  { destruct (Hcontains r chart url Hin Hm) as [x Hx].
    intros Hzero. apply map_size_empty_inv in Hzero. by rewrite Hzero in Hx. }
  assert (Hex : Exists (fun r => exists chart url,
                          managedChart repoToURL r = Returned (Some (chart, url))
                          /\ rdeps rd !! chart = None) rs).
  { apply Exists_exists. exists r. split; [done|]. by exists chart, url. }
  destruct (mergeList_missing_entry repoToURL rd rs Hall Hex)
    as (missing & Hres & Hmiss & _).
  unfold mergeLockedDependencies. unfold bind at 1. rewrite Hscan.
  apply Nat.eqb_neq in Hsize. rewrite Hsize.
  rewrite (resolveDependencies_run st _ u (Some rd) w w s rs HResolve Hst Harr).
  fold repoToURL. rewrite Hres. by eauto.
Qed.

End MergeLocked.

(** ** The scenarios of the specification *)

Example scan_conflicting_constraints :
  (@getUnresolvedDependenciess Demo.externals 1%positive
     (Demo.worldOf ∅ [ReleaseSpec.mk "myrepo/envoy" "1.2.0";
                      ReleaseSpec.mk "myrepo/envoy" "1.3.0"])).1
  = Returned (EmptyString, None,
              Some (duplicate_unresolved
                      (mkUnresolved "envoy" Demo.chartsURL "1.2.0")
                      (mkUnresolved "envoy" Demo.chartsURL "1.3.0"))).
Proof. vm_compute. reflexivity. Qed.

Example merge_with_lock :
  let run := @mergeLockedDependencies Demo.externals 1%positive
               (Demo.worldOf {[ "helmfile.lock" := Demo.lockOfBoth ]} Demo.releases) in
  run.1 = Returned (Some 2%positive, None)
  /\ arrays run.2 !! 7%positive
     = Some [ReleaseSpec.mk "myrepo/envoy" "1.2.3";
             ReleaseSpec.mk "myrepo/nginx" "1.4.0";
             ReleaseSpec.mk "./local/app" EmptyString].
Proof. vm_compute. done. Qed.

Example merge_without_managed_release :
  @mergeLockedDependencies Demo.externals 1%positive (Demo.worldOf ∅ [Demo.localApp; Demo.foo])
  = (Returned (Some 1%positive, None), Demo.worldOf ∅ [Demo.localApp; Demo.foo]).
Proof. vm_compute. reflexivity. Qed.

Example update_then_merge :
  let run := @updateDependencies Demo.externals 1%positive
               (Demo.writingUpdater Demo.lockOfBoth) Demo.scanned "helmfile" "/tmp/ws"
               (Demo.worldOf ∅ Demo.releases) in
  run.1 = Returned (Some 2%positive, None)
  /\ files run.2 !! "helmfile.lock" = Some Demo.lockOfBoth
  /\ arrays run.2 !! 7%positive
     = Some [ReleaseSpec.mk "myrepo/envoy" "1.2.3";
             ReleaseSpec.mk "myrepo/nginx" "1.4.0";
             ReleaseSpec.mk "./local/app" EmptyString].
Proof. vm_compute. done. Qed.

(** * Further properties of the code *)

(** ** What a scan puts in the set *)

Section ScanContents.

Context `{E : Externals}.
Implicit Types (repoToURL : gmap string string) (r : ReleaseSpec.t)
  (rs : list ReleaseSpec.t) (u d : UnresolvedDependencies)
  (dep spec : unresolvedChartDependency).

Lemma add_ok_insert dep d d' :
  add dep d = (None, d') -> deps d' = <[ChartName dep := dep]> (deps d).
Proof.
  unfold add. destruct (deps d !! ChartName dep).
  - destruct (_ || _); [done|]. by intros [= <-].
  - by intros [= <-].
Qed.

(** A successful [add] to a set whose entries are stored under their names
    adds its argument and changes nothing else. *)
Lemma add_ok_entries dep d d' :
  add dep d = (None, d') ->
  keysAreNames d ->
  forall n spec,
    deps d' !! n = Some spec <->
    deps d !! n = Some spec \/ (n = ChartName dep /\ spec = dep).
Proof.
  intros Hadd Hkeys n spec. rewrite (add_ok_insert _ _ _ Hadd).
  destruct (decide (ChartName dep = n)) as [<-|Hne].
  - rewrite lookup_insert_eq. split.
    + intros [= <-]. by right.
    + intros [Hold|[_ ->]]; [|done].
      pose proof (Hkeys _ _ Hold) as Hname.
      unfold add in Hadd. rewrite Hold in Hadd.
      destruct (String.eqb_spec (Repository spec) (Repository dep)) as [Hr|]; [|done].
      destruct (String.eqb_spec (VersionConstraint spec) (VersionConstraint dep)) as [Hv|];
        [|done].
      f_equal. destruct spec, dep; simpl in *. by subst.
  - rewrite lookup_insert_ne by done. split; [by left|].
    intros [Hold|[-> _]]; done.
Qed.

Lemma add_ok_keysAreNames dep d d' :
  add dep d = (None, d') -> keysAreNames d -> keysAreNames d'.
Proof.
  intros Hadd Hkeys n spec Hn.
  apply (add_ok_entries _ _ _ Hadd Hkeys) in Hn as [Hold|[-> ->]]; [|done].
  by apply Hkeys.
Qed.

(** The error of [add] is the conflict of its argument with the entry of
    the same name. *)
Lemma add_error_conflict dep d d' err :
  add dep d = (Some err, d') ->
  exists existing,
    deps d !! ChartName dep = Some existing
    /\ err = duplicate_unresolved existing dep
    /\ (Repository existing <> Repository dep
        \/ VersionConstraint existing <> VersionConstraint dep).
Proof.
  unfold add. destruct (deps d !! ChartName dep) as [existing|]; [|done].
  destruct (String.eqb_spec (Repository existing) (Repository dep)) as [Hr|Hr];
    destruct (String.eqb_spec (VersionConstraint existing) (VersionConstraint dep))
      as [Hv|Hv]; simpl; try done; intros [= <- <-]; exists existing; eauto.
Qed.

(** The entries of the set a scan returns: those it started with, and the
    specs of the managed releases. *)
Lemma scanReleases_ok_entries repoToURL rs u u' :
  scanReleases repoToURL rs u = Returned (None, u') ->
  keysAreNames u ->
  keysAreNames u'
  /\ forall n spec,
       deps u' !! n = Some spec <->
       deps u !! n = Some spec
       \/ exists r url,
            r ∈ rs /\ managedChart repoToURL r = Returned (Some (n, url))
            /\ spec = specOf n url r.
Proof.
  revert u. induction rs as [|r rs IH]; intros u.
  - intros [= <-] Hkeys. split; [done|]. intros n spec. split; [by left|].
    intros [Hold|(r & url & Hin & _)]; [done|]. by apply elem_of_nil in Hin.
  - rewrite scanReleases_cons.
    destruct (managedChart repoToURL r) as [[[chart url]|]|p] eqn:Hm; [| |done].
    + destruct (Add chart url (ReleaseSpec.Version r) u) as [[err|] u1] eqn:Hadd; [done|].
      unfold Add in Hadd. intros Hscan Hkeys.
      pose proof (add_ok_keysAreNames _ _ _ Hadd Hkeys) as Hkeys1.
      destruct (IH _ Hscan Hkeys1) as [Hkeys' Hentries]. split; [done|].
      intros n spec. rewrite Hentries, (add_ok_entries _ _ _ Hadd Hkeys n spec).
      simpl. split.
      * intros [[Hold|[-> ->]]|(r0 & url0 & Hin & Hm0 & ->)].
        -- by left.
        -- right. exists r, url. split; [by left|done].
        -- right. exists r0, url0. split; [by right|done].
      * intros [Hold|(r0 & url0 & Hin & Hm0 & ->)]; [by left; left|].
        apply elem_of_cons in Hin as [->|Hin].
        -- rewrite Hm in Hm0. injection Hm0 as <- <-. left. by right.
        -- right. by exists r0, url0.
    + intros Hscan Hkeys. destruct (IH _ Hscan Hkeys) as [Hkeys' Hentries].
      split; [done|]. intros n spec. rewrite Hentries. split.
      * intros [Hold|(r0 & url0 & Hin & Hm0 & ->)]; [by left|].
        right. exists r0, url0. split; [by right|done].
      * intros [Hold|(r0 & url0 & Hin & Hm0 & ->)]; [by left|].
        apply elem_of_cons in Hin as [->|Hin]; [congruence|].
        right. by exists r0, url0.
Qed.

(** The error of a scan is the conflict of a managed release with an entry
    of the set. *)
Lemma scanReleases_error_conflict repoToURL rs u u' err :
  scanReleases repoToURL rs u = Returned (Some err, u') ->
  exists existing dep,
    err = duplicate_unresolved existing dep
    /\ (Repository existing <> Repository dep
        \/ VersionConstraint existing <> VersionConstraint dep).
Proof.
  revert u. induction rs as [|r rs IH]; intros u; [done|].
  rewrite scanReleases_cons.
  destruct (managedChart repoToURL r) as [[[chart url]|]|p]; [|by apply IH|done].
  destruct (Add chart url (ReleaseSpec.Version r) u) as [[err'|] u1] eqn:Hadd.
  - intros [= <- <-]. unfold Add in Hadd.
    destruct (add_error_conflict _ _ _ _ Hadd) as (existing & _ & -> & Hdiff).
    by exists existing, (mkUnresolved chart url (ReleaseSpec.Version r)).
  - by apply IH.
Qed.

(** A scan of releases that are all classified does not panic. *)
Lemma scanReleases_classified_returns repoToURL rs u :
  Forall (fun r => exists x, managedChart repoToURL r = Returned x) rs ->
  exists res, scanReleases repoToURL rs u = Returned res.
Proof.
  intros Hall. revert u. induction Hall as [|r rs [x Hr] _ IH]; intros u; [by eexists|].
  rewrite scanReleases_cons, Hr. destruct x as [[chart url]|]; [|by apply IH].
  destruct (Add chart url (ReleaseSpec.Version r) u) as [[err|] u1]; [by eexists|].
  by apply IH.
Qed.

Lemma managedChart_Some repoToURL r n url :
  managedChart repoToURL r = Returned (Some (n, url)) <->
  exists alias,
    resolveRemoteChart (ReleaseSpec.Chart r) = Returned (alias, n, true)
    /\ repoToURL !! alias = Some url.
Proof.
  unfold managedChart. split.
  - destruct (resolveRemoteChart (ReleaseSpec.Chart r)) as [[[alias chart] ok]|p]; [|done].
    destruct ok; [|done]. simpl.
    destruct (repoToURL !! alias) as [url'|] eqn:Hurl; [|done].
    intros [= -> ->]. by exists alias.
  - intros (alias & -> & ->). done.
Qed.

Lemma keysAreNames_empty : keysAreNames (mkUnresolvedDependencies ∅).
Proof. intros n spec. simpl. by rewrite lookup_empty. Qed.

End ScanContents.

(** X1. The set a scan returns holds exactly the managed releases of the
    document: a name has an entry if and only if some release with a mapped
    alias refers to that chart, and the entry is the name, the URL of the
    alias and the version the release declares. *)
Theorem getUnresolvedDependenciess_entries :
  forall (E : Externals) (st : loc) (w w0 : world) (filename : string)
         (u : UnresolvedDependencies) (s : HelmState) (rs : list ReleaseSpec.t),
    getUnresolvedDependenciess st w = (Returned (filename, Some u, None), w0) ->
    structs w !! st = Some s ->
    arrays w !! Releases s = Some rs ->
    forall n spec,
      deps u !! n = Some spec <->
      exists r alias url,
        r ∈ rs
        /\ resolveRemoteChart (ReleaseSpec.Chart r) = Returned (alias, n, true)
        /\ buildRepoToURL (Repositories s) !! alias = Some url
        /\ spec = mkUnresolved n url (ReleaseSpec.Version r).
Proof.
  intros E st w w0 filename u s rs Hscan Hst Harr n spec.
  destruct (getUnresolvedDependenciess_ok _ _ _ _ _ Hscan) as (_ & s' & Hst' & Hloop & _).
  rewrite Hst in Hst'. injection Hst' as <-. rewrite Harr in Hloop. simpl in Hloop.
  destruct (scanReleases_ok_entries _ _ _ _ Hloop keysAreNames_empty) as [_ Hentries].
  rewrite Hentries. simpl. rewrite lookup_empty. split.
  - intros [Hold|(r & url & Hin & Hm & ->)]; [done|].
    apply managedChart_Some in Hm as (alias & Hremote & Hurl).
    by exists r, alias, url.
  - intros (r & alias & url & Hin & Hremote & Hurl & ->). right.
    exists r, url. split; [done|]. split; [|done].
    apply managedChart_Some. by exists alias.
Qed.

Lemma getUnresolvedDependenciess_entries_witness :
  deps Demo.scanned !! "nginx" = Some (mkUnresolved "nginx" Demo.chartsURL ">=1.0") <->
  exists r alias url,
    r ∈ Demo.releases
    /\ @resolveRemoteChart Demo.externals (ReleaseSpec.Chart r) = Returned (alias, "nginx", true)
    /\ buildRepoToURL (Repositories Demo.document) !! alias = Some url
    /\ mkUnresolved "nginx" Demo.chartsURL ">=1.0"
       = mkUnresolved "nginx" url (ReleaseSpec.Version r).
Proof.
  apply (getUnresolvedDependenciess_entries Demo.externals 1%positive
           (Demo.worldOf ∅ Demo.releases) (Demo.worldOf ∅ Demo.releases)
           "helmfile" Demo.scanned Demo.document Demo.releases).
  - vm_compute. reflexivity.
  - vm_compute. reflexivity.
  - vm_compute. reflexivity.
Defined.

(** X2. When every reference of the document is classified and two managed
    releases name the same chart with different repository URLs or different
    versions, the scan returns no set and the error of [add] for two
    conflicting specs. *)
Theorem getUnresolvedDependenciess_conflict :
  forall (E : Externals) (st : loc) (w : world) (s : HelmState)
         (rs : list ReleaseSpec.t) (r1 r2 : ReleaseSpec.t)
         (alias1 alias2 chart url1 url2 : string),
    structs w !! st = Some s ->
    arrays w !! Releases s = Some rs ->
    Forall (fun r => exists x, resolveRemoteChart (ReleaseSpec.Chart r) = Returned x) rs ->
    r1 ∈ rs ->
    r2 ∈ rs ->
    resolveRemoteChart (ReleaseSpec.Chart r1) = Returned (alias1, chart, true) ->
    resolveRemoteChart (ReleaseSpec.Chart r2) = Returned (alias2, chart, true) ->
    buildRepoToURL (Repositories s) !! alias1 = Some url1 ->
    buildRepoToURL (Repositories s) !! alias2 = Some url2 ->
    url1 <> url2 \/ ReleaseSpec.Version r1 <> ReleaseSpec.Version r2 ->
    exists existing dep,
      getUnresolvedDependenciess st w
      = (Returned (EmptyString, None, Some (duplicate_unresolved existing dep)), w)
      /\ (Repository existing <> Repository dep
          \/ VersionConstraint existing <> VersionConstraint dep).
Proof.
  intros E st w s rs r1 r2 alias1 alias2 chart url1 url2
         Hst Harr Hall Hin1 Hin2 Hrem1 Hrem2 Hurl1 Hurl2 Hdiff.
  set (repoToURL := buildRepoToURL (Repositories s)) in *.
  assert (Hall' : Forall (fun r => exists x, managedChart repoToURL r = Returned x) rs).
  { eapply Forall_impl; [exact Hall|]. intros r. apply managedChart_classified. }
  destruct (scanReleases_classified_returns repoToURL rs (mkUnresolvedDependencies ∅) Hall')
    as [[[err|] u'] Hscan].
  - destruct (scanReleases_error_conflict _ _ _ _ _ Hscan) as (existing & dep & -> & Hd).
    exists existing, dep. split; [|done].
    unfold getUnresolvedDependenciess, bind, load, slice_elems, lift.
    rewrite Hst, Harr. simpl. fold repoToURL. by rewrite Hscan.
  - exfalso.
    destruct (scanReleases_ok_entries _ _ _ _ Hscan keysAreNames_empty) as [_ Hentries].
    assert (H1 : deps u' !! chart = Some (specOf chart url1 r1)).
    { apply Hentries. right. exists r1, url1. split; [done|]. split; [|done].
      by eapply managedChart_mapped. }
    assert (H2 : deps u' !! chart = Some (specOf chart url2 r2)).
    { apply Hentries. right. exists r2, url2. split; [done|]. split; [|done].
      by eapply managedChart_mapped. }
    rewrite H1 in H2. injection H2 as Hu Hv. by destruct Hdiff.
Qed.

Lemma getUnresolvedDependenciess_conflict_witness :
  exists existing dep,
    @getUnresolvedDependenciess Demo.externals 1%positive
      (Demo.worldOf ∅ [ReleaseSpec.mk "myrepo/envoy" "1.2.0"; Demo.localApp;
                       ReleaseSpec.mk "myrepo/envoy" "1.3.0"])
    = (Returned (EmptyString, None, Some (duplicate_unresolved existing dep)),
       Demo.worldOf ∅ [ReleaseSpec.mk "myrepo/envoy" "1.2.0"; Demo.localApp;
                       ReleaseSpec.mk "myrepo/envoy" "1.3.0"])
    /\ (Repository existing <> Repository dep
        \/ VersionConstraint existing <> VersionConstraint dep).
Proof.
  apply (getUnresolvedDependenciess_conflict Demo.externals 1%positive _ Demo.document
           [ReleaseSpec.mk "myrepo/envoy" "1.2.0"; Demo.localApp;
            ReleaseSpec.mk "myrepo/envoy" "1.3.0"]
           (ReleaseSpec.mk "myrepo/envoy" "1.2.0") (ReleaseSpec.mk "myrepo/envoy" "1.3.0")
           "myrepo" "myrepo" "envoy" Demo.chartsURL Demo.chartsURL).
  - vm_compute. reflexivity.
  - vm_compute. reflexivity.
  - repeat constructor; eexists; vm_compute; reflexivity.
  - set_solver.
  - set_solver.
  - vm_compute. reflexivity.
  - vm_compute. reflexivity.
  - vm_compute. reflexivity.
  - vm_compute. reflexivity.
  - right. simpl. discriminate.
Defined.

(** X3. The requirements generated from the set of a scan name every chart
    of the set, and so every chart of a managed release, exactly once: the
    names are pairwise distinct, a name is among them if and only if it has
    an entry in the set, and there are as many requirements as entries. None
    of them has an empty constraint. *)
Theorem scanned_requirements_unique_names :
  forall (E : Externals) (st : loc) (w w0 : world) (filename : string)
         (u : UnresolvedDependencies),
    getUnresolvedDependenciess st w = (Returned (filename, Some u, None), w0) ->
    let names := map ChartName (Requirements (ToChartRequirements u).1) in
    NoDup names
    /\ (forall n, n ∈ names <-> is_Some (deps u !! n))
    /\ length names = size (deps u)
    /\ Forall (fun x => VersionConstraint x <> EmptyString)
         (Requirements (ToChartRequirements u).1).
Proof.
  intros E st w w0 filename u Hscan names.
  destruct (getUnresolvedDependenciess_ok _ _ _ _ _ Hscan) as (_ & s & _ & Hloop & _).
  destruct (scanReleases_ok_entries _ _ _ _ Hloop keysAreNames_empty) as [Hkeys _].
  assert (Hnames : names = (map_to_list (deps u)).*1).
  { subst names. rewrite ToChartRequirements_list, map_map.
    apply map_ext_in. intros [n spec] Hin. apply list_elem_of_In in Hin.
    apply elem_of_map_to_list in Hin. simpl.
    rewrite <- (Hkeys _ _ Hin). unfold defaultConstraint.
    by destruct (String.eqb _ _). }
  split; [|split; [|split]].
  - rewrite Hnames. apply NoDup_fst_map_to_list.
  - intros n. rewrite Hnames. rewrite list_elem_of_fmap. split.
    + intros ([n' spec] & -> & Hin). apply elem_of_map_to_list in Hin. by eexists.
    + intros [spec Hspec]. exists (n, spec). split; [done|].
      by apply elem_of_map_to_list.
  - rewrite Hnames, length_fmap. apply length_map_to_list.
  - rewrite ToChartRequirements_list.
    apply Forall_forall. intros x Hx. apply list_elem_of_fmap in Hx as ([n spec] & -> & _).
    simpl. unfold defaultConstraint.
    destruct (String.eqb_spec (VersionConstraint spec) EmptyString); simpl; done.
Qed.

Lemma scanned_requirements_unique_names_witness :
  let names := map ChartName (Requirements (ToChartRequirements Demo.scanned).1) in
  NoDup names
  /\ (forall n, n ∈ names <-> is_Some (deps Demo.scanned !! n))
  /\ length names = size (deps Demo.scanned)
  /\ Forall (fun x => VersionConstraint x <> EmptyString)
       (Requirements (ToChartRequirements Demo.scanned).1).
Proof.
  apply (scanned_requirements_unique_names Demo.externals 1%positive
           (Demo.worldOf ∅ Demo.releases) (Demo.worldOf ∅ Demo.releases)
           "helmfile" Demo.scanned).
  vm_compute. reflexivity.
Defined.

(** ** What [Resolve] makes of a lock *)

Section ResolvedSet.

Implicit Types (ds : list ResolvedChartDependency.t) (resolved : ResolvedDependencies).

(** For names that are pairwise distinct and new to the set, the loop of
    [Resolve] returns the set extended with one entry per dependency. *)
Lemma addResolved_NoDup_ok ds resolved :
  NoDup (map ResolvedChartDependency.ChartName ds) ->
  Forall (fun d => rdeps resolved !! ResolvedChartDependency.ChartName d = None) ds ->
  exists resolved',
    addResolved ds resolved = (None, resolved')
    /\ (forall d, d ∈ ds -> rdeps resolved' !! ResolvedChartDependency.ChartName d = Some d)
    /\ (forall n, n ∉ map ResolvedChartDependency.ChartName ds ->
                  rdeps resolved' !! n = rdeps resolved !! n).
Proof.
  revert resolved. induction ds as [|d ds IH]; intros resolved Hnodup Hnew.
  - exists resolved. split; [done|]. split; [|done].
    intros d Hin. by apply elem_of_nil in Hin.
  - simpl in Hnodup. apply NoDup_cons in Hnodup as [Hd Hnodup].
    apply Forall_cons in Hnew as [Hdnew Hnew].
    simpl. unfold radd. rewrite Hdnew.
    set (resolved1 := mkResolvedDependencies _).
    destruct (IH resolved1 Hnodup) as (resolved' & -> & Hin & Hout).
    { apply Forall_forall. intros d' Hd'. simpl.
      rewrite Forall_forall in Hnew. rewrite lookup_insert_ne; [by apply Hnew|].
      intros Heq. apply Hd. rewrite Heq. apply list_elem_of_fmap. by exists d'. }
    exists resolved'. split; [done|]. split.
    + intros d' Hd'. apply elem_of_cons in Hd' as [->|Hd']; [|by apply Hin].
      rewrite (Hout _ Hd). simpl. apply lookup_insert_eq.
    + intros n Hn. apply not_elem_of_cons in Hn as [Hne Hn].
      rewrite (Hout _ Hn). simpl. by rewrite lookup_insert_ne.
Qed.

(** The error of the loop names a dependency whose name is in the set it
    started from, or is the name of an earlier dependency. *)
Lemma addResolved_error ds resolved resolved' err :
  addResolved ds resolved = (Some err, resolved') ->
  exists before d after,
    ds = (before ++ d :: after)%list
    /\ err = Errorf ("duplicate chart dependency " ++ dquote
                     ++ ResolvedChartDependency.ChartName d ++ dquote)
    /\ (is_Some (rdeps resolved !! ResolvedChartDependency.ChartName d)
        \/ exists d0, d0 ∈ before
             /\ ResolvedChartDependency.ChartName d0 = ResolvedChartDependency.ChartName d).
Proof.
  revert resolved. induction ds as [|d ds IH]; intros resolved; [done|].
  simpl. unfold radd.
  destruct (rdeps resolved !! ResolvedChartDependency.ChartName d) as [x|] eqn:Hd.
  - intros [= <- <-]. exists [], d, ds. split; [done|]. split; [done|]. left. by eexists.
  - intros Hrest. destruct (IH _ Hrest) as (before & d' & after & -> & -> & Hwhere).
    exists (d :: before), d', after. split; [done|]. split; [done|].
    destruct Hwhere as [[y Hy]|(d0 & Hin & Hname)].
    + simpl in Hy.
      destruct (decide (ResolvedChartDependency.ChartName d
                        = ResolvedChartDependency.ChartName d')) as [Heq|Hne].
      * right. exists d. split; [by left|done].
      * rewrite lookup_insert_ne in Hy by done. left. by eexists.
    + right. exists d0. split; [by right|done].
Qed.

End ResolvedSet.

(** X4. A lock file whose content parses into dependencies with pairwise
    distinct names resolves to a set in which [Get] returns, for the name of
    each dependency, the version of that dependency, and the error
    "no resolved dependency found" for every other name; the world is left
    as it is. *)
Theorem Resolve_lookup_of_lock :
  forall (E : Externals) (name : string) (unresolved : UnresolvedDependencies)
         (w : world) (c : string) (ds : list ResolvedChartDependency.t),
    deny_read w !! (name ++ ".lock") = None ->
    files w !! (name ++ ".lock") = Some c ->
    yaml_Unmarshal (Some c) = (mkChartLockedRequirements ds, None) ->
    NoDup (map ResolvedChartDependency.ChartName ds) ->
    exists rd,
      Resolve (NewChartDependencyManager name) unresolved w
      = (Returned (Some rd, true, None), w)
      /\ (forall d, d ∈ ds ->
            Get (Some rd) (ResolvedChartDependency.ChartName d)
            = Returned (ResolvedChartDependency.Version d, None))
      /\ (forall n, n ∉ map ResolvedChartDependency.ChartName ds ->
            Get (Some rd) n = Returned (EmptyString, Some (not_found n))).
Proof.
  intros E name unresolved w c ds Hdeny Hfile Hparse Hnodup.
  destruct (addResolved_NoDup_ok ds (mkResolvedDependencies ∅) Hnodup)
    as (rd & Hadd & Hin & Hout).
  { apply Forall_forall. intros d _. simpl. apply lookup_empty. }
  exists rd. split; [|split].
  - unfold Resolve. unfold bind at 1. rewrite readBytes_default.
    unfold lockFileName. cbn [Name NewChartDependencyManager].
    rewrite Hdeny, Hfile, Hparse. cbn [Locked]. by rewrite Hadd.
  - intros d Hd. unfold Get. by rewrite (Hin d Hd).
  - intros n Hn. unfold Get. rewrite (Hout n Hn). simpl. by rewrite lookup_empty.
Qed.

Lemma Resolve_lookup_of_lock_witness :
  exists rd,
    @Resolve Demo.externals (NewChartDependencyManager "helmfile") Demo.scanned
      (Demo.worldOf {[ "helmfile.lock" := Demo.lockOfBoth ]} Demo.releases)
    = (Returned (Some rd, true, None),
       Demo.worldOf {[ "helmfile.lock" := Demo.lockOfBoth ]} Demo.releases)
    /\ (forall d,
          d ∈ [ResolvedChartDependency.mk "envoy" Demo.chartsURL "1.2.3";
               ResolvedChartDependency.mk "nginx" Demo.chartsURL "1.4.0"] ->
          Get (Some rd) (ResolvedChartDependency.ChartName d)
          = Returned (ResolvedChartDependency.Version d, None))
    /\ (forall n,
          n ∉ map ResolvedChartDependency.ChartName
                [ResolvedChartDependency.mk "envoy" Demo.chartsURL "1.2.3";
                 ResolvedChartDependency.mk "nginx" Demo.chartsURL "1.4.0"] ->
          Get (Some rd) n = Returned (EmptyString, Some (not_found n))).
Proof.
  apply (Resolve_lookup_of_lock Demo.externals "helmfile" Demo.scanned
           (Demo.worldOf {[ "helmfile.lock" := Demo.lockOfBoth ]} Demo.releases)
           Demo.lockOfBoth).
  - vm_compute. reflexivity.
  - vm_compute. reflexivity.
  - vm_compute. reflexivity.
  - simpl. apply (bool_decide_unpack _). vm_compute. reflexivity.
Defined.

(** X5. A lock file whose content parses into dependencies of which two
    have the same name does not resolve: [Resolve] returns a nil set, the
    flag false and the error "duplicate chart dependency" for the name of a
    dependency that an earlier one already has. *)
Theorem Resolve_duplicate_names :
  forall (E : Externals) (name : string) (unresolved : UnresolvedDependencies)
         (w : world) (c : string) (ds : list ResolvedChartDependency.t),
    deny_read w !! (name ++ ".lock") = None ->
    files w !! (name ++ ".lock") = Some c ->
    yaml_Unmarshal (Some c) = (mkChartLockedRequirements ds, None) ->
    ~ NoDup (map ResolvedChartDependency.ChartName ds) ->
    exists before d0 between d after,
      ds = (before ++ d0 :: between ++ d :: after)%list
      /\ ResolvedChartDependency.ChartName d0 = ResolvedChartDependency.ChartName d
      /\ Resolve (NewChartDependencyManager name) unresolved w
         = (Returned (None, false,
                      Some (Errorf ("duplicate chart dependency " ++ dquote
                                    ++ ResolvedChartDependency.ChartName d ++ dquote))), w).
Proof.
  intros E name unresolved w c ds Hdeny Hfile Hparse Hdup.
  destruct (addResolved ds (mkResolvedDependencies ∅)) as [[err|] rd] eqn:Hadd.
  2:{ contradict Hdup. apply (addResolved_ok_NoDup ds (mkResolvedDependencies ∅)).
      by rewrite Hadd. }
  destruct (addResolved_error _ _ _ _ Hadd) as (pre & d & after & -> & -> & Hwhere).
  destruct Hwhere as [[x Hx]|(d0 & Hin & Hname)].
  { simpl in Hx. by rewrite lookup_empty in Hx. }
  apply list_elem_of_split in Hin as (before & between & ->).
  exists before, d0, between, d, after. split; [by rewrite <- app_assoc|].
  split; [done|].
  unfold Resolve. unfold bind at 1. rewrite readBytes_default.
  unfold lockFileName. cbn [Name NewChartDependencyManager].
  rewrite Hdeny, Hfile, Hparse. cbn [Locked]. by rewrite Hadd.
Qed.

Lemma Resolve_duplicate_names_witness :
  let c := "envoy https://example.com/charts 1.2.3" ++ nl
           ++ "nginx https://example.com/charts 1.4.0" ++ nl
           ++ "envoy https://example.com/charts 1.3.0" ++ nl in
  exists before d0 between d after,
    [ResolvedChartDependency.mk "envoy" Demo.chartsURL "1.2.3";
     ResolvedChartDependency.mk "nginx" Demo.chartsURL "1.4.0";
     ResolvedChartDependency.mk "envoy" Demo.chartsURL "1.3.0"]
    = (before ++ d0 :: between ++ d :: after)%list
    /\ ResolvedChartDependency.ChartName d0 = ResolvedChartDependency.ChartName d
    /\ @Resolve Demo.externals (NewChartDependencyManager "helmfile") Demo.scanned
         (Demo.worldOf {[ "helmfile.lock" := c ]} Demo.releases)
       = (Returned (None, false,
                    Some (Errorf ("duplicate chart dependency " ++ dquote
                                  ++ ResolvedChartDependency.ChartName d ++ dquote))),
          Demo.worldOf {[ "helmfile.lock" := c ]} Demo.releases).
Proof.
  intros c.
  apply (Resolve_duplicate_names Demo.externals "helmfile" Demo.scanned
           (Demo.worldOf {[ "helmfile.lock" := c ]} Demo.releases) c).
  - vm_compute. reflexivity.
  - vm_compute. reflexivity.
  - vm_compute. reflexivity.
  - simpl. intros Hnodup. apply NoDup_cons in Hnodup as [Hnotin _].
    apply Hnotin. set_solver.
Defined.

(** X6. Whatever the manager reads, a call of [Resolve] that returns gives
    the flag true exactly when it gives no error, and a set only when it
    gives no error: the flag does not tell a missing lock file from a lock
    file that was read. *)
Theorem Resolve_flag_is_no_error :
  forall (E : Externals) (m : chartDependencyManager) (unresolved : UnresolvedDependencies)
         (w w' : world) (rd : option ResolvedDependencies) (flag : bool)
         (err : option error),
    Resolve m unresolved w = (Returned (rd, flag, err), w') ->
    (flag = true <-> err = None) /\ (is_Some rd -> err = None).
Proof.
  intros E m unresolved w w' rd flag err. unfold Resolve, bind.
  destruct (readBytes m (lockFileName m) w) as [[[content rerr]|p] w1]; [|done].
  destruct rerr as [rerr|].
  - destruct (IsNotExist rerr); intros [= <- <- <- <-]; split;
      try done; try (by intros [x Hx]); split; done.
  - destruct (yaml_Unmarshal content) as [lockedReqs [perr|]].
    + intros [= <- <- <- <-]. split; [done|]. by intros [x Hx].
    + destruct (addResolved _ _) as [[aerr|] resolved]; intros [= <- <- <- <-].
      * split; [done|]. by intros [x Hx].
      * done.
Qed.

Lemma Resolve_flag_is_no_error_witness :
  (true = true <-> @None error = None) /\ (is_Some (@None ResolvedDependencies) -> @None error = None).
Proof.
  apply (Resolve_flag_is_no_error Demo.externals (NewChartDependencyManager "helmfile")
           (mkUnresolvedDependencies ∅) Demo.emptyWorld Demo.emptyWorld None true None).
  vm_compute. reflexivity.
Defined.

(** ** What the merge does to the releases *)

Section MergeEffects.

Context `{E : Externals}.
Implicit Types (repoToURL : gmap string string) (r : ReleaseSpec.t)
  (rs : list ReleaseSpec.t) (resolved : option ResolvedDependencies).

Lemma skippedRelease_managedChart repoToURL r :
  skippedRelease repoToURL r <-> managedChart repoToURL r = Returned None.
Proof.
  unfold skippedRelease, managedChart. split.
  - intros (repo & chart & ok & -> & [->|Hnone]); [done|].
    destruct ok; simpl; [|done]. by rewrite Hnone.
  - destruct (resolveRemoteChart (ReleaseSpec.Chart r)) as [[[repo chart] ok]|p]; [|done].
    intros Hm. exists repo, chart, ok. split; [done|].
    destruct ok; [|by left]. simpl in Hm. right.
    by destruct (repoToURL !! repo).
Qed.

(** The loop keeps the number of releases and their chart references, and
    leaves a skipped release as it is, however it ends. *)
Lemma mergeList_frame repoToURL resolved rs :
  map ReleaseSpec.Chart (mergeList repoToURL resolved rs).2 = map ReleaseSpec.Chart rs
  /\ forall i r,
       rs !! i = Some r ->
       managedChart repoToURL r = Returned None ->
       (mergeList repoToURL resolved rs).2 !! i = Some r.
Proof.
  induction rs as [|r rs [IHc IHs]]; [done|].
  simpl. destruct (managedChart repoToURL r) as [[[chart url]|]|p] eqn:Hm.
  - destruct (Get resolved chart) as [[ver [err|]]|p].
    + split; [done|]. by intros i r0.
    + destruct (mergeList repoToURL resolved rs) as [o l]. simpl in *. split.
      * by rewrite IHc.
      * intros [|i] r0; simpl; [|by apply IHs]. intros [= <-]. congruence.
    + split; [done|]. by intros i r0.
  - destruct (mergeList repoToURL resolved rs) as [o l]. simpl in *. split.
    + by rewrite IHc.
    + intros [|i] r0; simpl; [done|by apply IHs].
  - split; [done|]. by intros i r0.
Qed.

(** The loop on releases of which the first without an entry comes after
    releases that are skipped or have one. *)
Lemma mergeList_first_missing repoToURL (rd : ResolvedDependencies)
    (before after : list ReleaseSpec.t) r chart url :
  Forall (fun r0 => managedChart repoToURL r0 = Returned None
                    \/ exists chart0 url0,
                         managedChart repoToURL r0 = Returned (Some (chart0, url0))
                         /\ is_Some (rdeps rd !! chart0)) before ->
  managedChart repoToURL r = Returned (Some (chart, url)) ->
  rdeps rd !! chart = None ->
  mergeList repoToURL (Some rd) (before ++ r :: after)
  = (Returned (Some (not_found chart)),
     (map (mergedRelease repoToURL rd) before ++ r :: after)%list).
Proof.
  intros Hbefore Hm Hnone. induction Hbefore as [|r0 before Hr0 _ IH].
  - simpl. by rewrite Hm, Hnone.
  - simpl. unfold mergedRelease at 1.
    destruct Hr0 as [Hskip|(chart0 & url0 & Hm0 & [dep Hdep])].
    + rewrite Hskip. by rewrite IH.
    + rewrite Hm0. simpl. rewrite Hdep. by rewrite IH.
Qed.

End MergeEffects.

(** X7. A document in which every release is skipped, because its reference
    is local or its alias is not mapped, is returned as it is, with no error
    and the world unchanged, by [mergeLockedDependencies] and by
    [updateDependenciesInTempDir]: neither the lock file nor the temporary
    directory nor the updater is used. *)
Theorem no_managed_release_fast_path :
  forall (E : Externals) (R : Removal) (st : loc) (w : world) (s : HelmState)
         (shell : DependencyUpdater)
         (tempDir : string -> string -> M (string * option error)),
    structs w !! st = Some s ->
    Forall (skippedRelease (buildRepoToURL (Repositories s)))
           (default [] (arrays w !! Releases s)) ->
    mergeLockedDependencies st w = (Returned (Some st, None), w)
    /\ updateDependenciesInTempDir st shell tempDir w = (Returned (Some st, None), w).
Proof.
  intros E R st w s shell tempDir Hst Hskip.
  assert (Hscan : getUnresolvedDependenciess st w
                  = (Returned
                       (TrimSuffix (TrimSuffix (TrimSuffix (filepath_Base (FilePath s))
                                                  ".gotmpl") ".yaml") ".yml",
                        Some (mkUnresolvedDependencies ∅), None), w)).
  { unfold getUnresolvedDependenciess, bind, load, slice_elems, lift. rewrite Hst.
    rewrite scanReleases_all_skipped; [done|].
    eapply Forall_impl; [exact Hskip|]. intros r. apply skippedRelease_managedChart. }
  split.
  - unfold mergeLockedDependencies. unfold bind at 1. by rewrite Hscan.
  - unfold updateDependenciesInTempDir. unfold bind at 1. by rewrite Hscan.
Qed.

Lemma no_managed_release_fast_path_witness :
  @mergeLockedDependencies Demo.externals 1%positive
    (Demo.worldOf ∅ [Demo.localApp; Demo.foo])
  = (Returned (Some 1%positive, None), Demo.worldOf ∅ [Demo.localApp; Demo.foo])
  /\ @updateDependenciesInTempDir Demo.externals DemoOS.removal 1%positive
       (Demo.failingUpdater "unused") DemoOS.failingTempDir
       (Demo.worldOf ∅ [Demo.localApp; Demo.foo])
     = (Returned (Some 1%positive, None), Demo.worldOf ∅ [Demo.localApp; Demo.foo]).
Proof.
  apply (no_managed_release_fast_path Demo.externals DemoOS.removal 1%positive
           (Demo.worldOf ∅ [Demo.localApp; Demo.foo]) Demo.document).
  - vm_compute. reflexivity.
  - apply Forall_cons. split; [|apply Forall_cons; split; [|apply Forall_nil_2]].
    + exists EmptyString, EmptyString, false. split; [reflexivity|by left].
    + exists "otherrepo", "foo", true. split; [reflexivity|right; reflexivity].
Defined.

(** X8. The merge is not undone when it fails. When the first managed
    release without an entry in the resolved set comes after releases that
    are skipped or have an entry, [resolveDependencies] returns the error of
    that release and no document, and the releases of the caller's document
    before it already carry their resolved versions; that release and the
    ones after it are as they were. *)
Theorem resolveDependencies_failure_keeps_partial_merge :
  forall (E : Externals) (st : loc) (depMan : chartDependencyManager)
         (unresolved : UnresolvedDependencies) (w w1 : world)
         (rd : ResolvedDependencies) (s : HelmState)
         (before after : list ReleaseSpec.t) (r : ReleaseSpec.t)
         (alias chart url : string),
    Resolve depMan unresolved w = (Returned (Some rd, true, None), w1) ->
    structs w1 !! st = Some s ->
    arrays w1 !! Releases s = Some (before ++ r :: after)%list ->
    Forall (fun r0 =>
              skippedRelease (buildRepoToURL (Repositories s)) r0
              \/ exists alias0 chart0 url0,
                   resolveRemoteChart (ReleaseSpec.Chart r0) = Returned (alias0, chart0, true)
                   /\ buildRepoToURL (Repositories s) !! alias0 = Some url0
                   /\ is_Some (rdeps rd !! chart0)) before ->
    resolveRemoteChart (ReleaseSpec.Chart r) = Returned (alias, chart, true) ->
    buildRepoToURL (Repositories s) !! alias = Some url ->
    rdeps rd !! chart = None ->
    exists w',
      resolveDependencies st depMan unresolved w
      = (Returned (None, Some (not_found chart)), w')
      /\ structs w' !! st = Some s
      /\ arrays w' !! Releases s
         = Some (map (mergedRelease (buildRepoToURL (Repositories s)) rd) before
                   ++ r :: after)%list.
Proof.
  intros E st depMan unresolved w w1 rd s before after r alias chart url
         HResolve Hst Harr Hbefore Hremote Hurl Hnone.
  set (repoToURL := buildRepoToURL (Repositories s)) in *.
  rewrite (resolveDependencies_run st depMan unresolved (Some rd) w w1 s _ HResolve Hst Harr).
  fold repoToURL.
  rewrite (mergeList_first_missing repoToURL rd before after r chart url).
  - eexists. split; [reflexivity|]. cbn [structs arrays fst snd]. split.
    + rewrite lookup_insert_ne; [done|]. intros Heq.
      apply (is_fresh (dom (structs w1))). rewrite Heq. apply elem_of_dom. by exists s.
    + by rewrite lookup_insert_eq.
  - eapply Forall_impl; [exact Hbefore|]. intros r0 [Hskip|(a0 & c0 & u0 & Hr0 & Hu0 & Hd0)].
    + left. by apply skippedRelease_managedChart.
    + right. exists c0, u0. split; [by eapply managedChart_mapped|done].
  - by eapply managedChart_mapped.
  - done.
Qed.

Lemma resolveDependencies_failure_keeps_partial_merge_witness :
  exists w',
    @resolveDependencies Demo.externals 1%positive
      (NewChartDependencyManager "helmfile") Demo.scanned
      (Demo.worldOf {[ "helmfile.lock" := Demo.lockOfEnvoy ]} Demo.releases)
    = (Returned (None, Some (not_found "nginx")), w')
    /\ structs w' !! 1%positive = Some Demo.document
    /\ arrays w' !! Releases Demo.document
       = Some (map (@mergedRelease Demo.externals
                      (buildRepoToURL (Repositories Demo.document)) Demo.resolvedEnvoy)
                 [Demo.envoy] ++ Demo.nginx :: [Demo.localApp])%list.
Proof.
  apply (resolveDependencies_failure_keeps_partial_merge Demo.externals 1%positive
           (NewChartDependencyManager "helmfile") Demo.scanned
           (Demo.worldOf {[ "helmfile.lock" := Demo.lockOfEnvoy ]} Demo.releases)
           (Demo.worldOf {[ "helmfile.lock" := Demo.lockOfEnvoy ]} Demo.releases)
           Demo.resolvedEnvoy Demo.document [Demo.envoy] [Demo.localApp] Demo.nginx
           "myrepo" "nginx" Demo.chartsURL).
  - vm_compute. reflexivity.
  - vm_compute. reflexivity.
  - vm_compute. reflexivity.
  - apply Forall_cons. split; [|apply Forall_nil_2].
    right. exists "myrepo", "envoy", Demo.chartsURL.
    split; [reflexivity|]. split; [reflexivity|]. eexists. vm_compute. reflexivity.
  - vm_compute. reflexivity.
  - vm_compute. reflexivity.
  - vm_compute. reflexivity.
Defined.

Example partial_merge_on_failure :
  let run := @resolveDependencies Demo.externals 1%positive
               (NewChartDependencyManager "helmfile") Demo.scanned
               (Demo.worldOf {[ "helmfile.lock" := Demo.lockOfEnvoy ]} Demo.releases) in
  run.1 = Returned (None, Some (not_found "nginx"))
  /\ arrays run.2 !! 7%positive
     = Some [ReleaseSpec.mk "myrepo/envoy" "1.2.3";
             ReleaseSpec.mk "myrepo/nginx" ">=1.0";
             ReleaseSpec.mk "./local/app" EmptyString].
Proof. vm_compute. done. Qed.

(** X9. However [resolveDependencies] ends once [Resolve] has returned a set
    or nil without error, it has not touched the files, the document has as
    many releases as before with the same chart references, every skipped
    release is as it was, and no other array of the heap has changed. *)
Theorem resolveDependencies_frame :
  forall (E : Externals) (st : loc) (depMan : chartDependencyManager)
         (unresolved : UnresolvedDependencies) (w w1 w' : world)
         (resolved : option ResolvedDependencies) (s : HelmState)
         (rs : list ReleaseSpec.t) (o : outcome (option loc * option error)),
    Resolve depMan unresolved w = (Returned (resolved, true, None), w1) ->
    structs w1 !! st = Some s ->
    arrays w1 !! Releases s = Some rs ->
    resolveDependencies st depMan unresolved w = (o, w') ->
    files w' = files w1
    /\ (forall a, a <> Releases s -> arrays w' !! a = arrays w1 !! a)
    /\ exists rs',
         arrays w' !! Releases s = Some rs'
         /\ map ReleaseSpec.Chart rs' = map ReleaseSpec.Chart rs
         /\ forall i r,
              rs !! i = Some r ->
              skippedRelease (buildRepoToURL (Repositories s)) r ->
              rs' !! i = Some r.
Proof.
  intros E st depMan unresolved w w1 w' resolved s rs o HResolve Hst Harr.
  rewrite (resolveDependencies_run st depMan unresolved resolved w w1 s rs HResolve Hst Harr).
  intros [= _ <-]. cbn [files arrays].
  destruct (mergeList_frame (buildRepoToURL (Repositories s)) resolved rs) as [Hc Hs].
  split; [done|]. split.
  - intros a Ha. by rewrite lookup_insert_ne.
  - eexists. split; [apply lookup_insert_eq|]. split; [done|].
    intros i r Hi Hskip. apply Hs; [done|]. by apply skippedRelease_managedChart.
Qed.

Lemma resolveDependencies_frame_witness :
  let w := Demo.worldOf {[ "helmfile.lock" := Demo.lockOfBoth ]} Demo.releases in
  let run := @resolveDependencies Demo.externals 1%positive
               (NewChartDependencyManager "helmfile") Demo.scanned w in
  files run.2 = files w
  /\ (forall a, a <> Releases Demo.document -> arrays run.2 !! a = arrays w !! a)
  /\ exists rs',
       arrays run.2 !! Releases Demo.document = Some rs'
       /\ map ReleaseSpec.Chart rs' = map ReleaseSpec.Chart Demo.releases
       /\ forall i r,
            Demo.releases !! i = Some r ->
            @skippedRelease Demo.externals (buildRepoToURL (Repositories Demo.document)) r ->
            rs' !! i = Some r.
Proof.
  intros w run.
  apply (resolveDependencies_frame Demo.externals 1%positive
           (NewChartDependencyManager "helmfile") Demo.scanned w w run.2
           (Some Demo.resolvedBoth) Demo.document Demo.releases run.1).
  - vm_compute. reflexivity.
  - vm_compute. reflexivity.
  - vm_compute. reflexivity.
  - subst run. apply surjective_pairing.
Defined.

(** ** Merging a lock that has every entry *)

Section MergeComplete.

Context `{E : Externals}.
Implicit Types (repoToURL : gmap string string) (r : ReleaseSpec.t)
  (rs : list ReleaseSpec.t) (rd : ResolvedDependencies).

Lemma mergeList_all_entries repoToURL rd rs :
  Forall (fun r => managedChart repoToURL r = Returned None
                   \/ exists chart url,
                        managedChart repoToURL r = Returned (Some (chart, url))
                        /\ is_Some (rdeps rd !! chart)) rs ->
  mergeList repoToURL (Some rd) rs = (Returned None, map (mergedRelease repoToURL rd) rs).
Proof.
  induction 1 as [|r rs Hr _ IH]; [done|].
  simpl. unfold mergedRelease at 1.
  destruct Hr as [Hskip|(chart & url & Hm & [dep Hdep])].
  - rewrite Hskip. by rewrite IH.
  - rewrite Hm. simpl. rewrite Hdep. by rewrite IH.
Qed.

(** Releases that are classified and whose managed charts have entries. *)
Lemma classified_with_entries repoToURL rd rs :
  Forall (fun r => exists x, managedChart repoToURL r = Returned x) rs ->
  (forall r alias chart url,
     r ∈ rs ->
     resolveRemoteChart (ReleaseSpec.Chart r) = Returned (alias, chart, true) ->
     repoToURL !! alias = Some url ->
     is_Some (rdeps rd !! chart)) ->
  Forall (fun r => managedChart repoToURL r = Returned None
                   \/ exists chart url,
                        managedChart repoToURL r = Returned (Some (chart, url))
                        /\ is_Some (rdeps rd !! chart)) rs.
Proof.
  intros Hall Hentries. apply Forall_forall. intros r Hin.
  rewrite Forall_forall in Hall. destruct (Hall r Hin) as [[[chart url]|] Hm]; [|by left].
  right. exists chart, url. split; [done|].
  apply managedChart_Some in Hm as (alias & Hremote & Hurl). by eapply Hentries.
Qed.

Lemma mergedRelease_skipped repoToURL rd r :
  managedChart repoToURL r = Returned None -> mergedRelease repoToURL rd r = r.
Proof. intros Hm. unfold mergedRelease. by rewrite Hm. Qed.

(** [Resolve] on a lock file whose content resolves to a set. *)
Lemma Resolve_default_content_ok (name : string) (unresolved : UnresolvedDependencies)
    (w : world) (c : string) rd :
  deny_read w !! (name ++ ".lock") = None ->
  files w !! (name ++ ".lock") = Some c ->
  resolveContent c = (Some rd, None) ->
  Resolve (NewChartDependencyManager name) unresolved w
  = (Returned (Some rd, true, None), w).
Proof.
  intros Hdeny Hfile. unfold Resolve. unfold bind at 1. rewrite readBytes_default.
  unfold lockFileName. cbn [Name NewChartDependencyManager].
  rewrite Hdeny, Hfile. unfold resolveContent.
  destruct (yaml_Unmarshal (Some c)) as [lockedReqs [err|]]; [done|].
  destruct (addResolved _ _) as [[err|] resolved]; [done|]. by intros [= <-].
Qed.

End MergeComplete.

(** X10. Merge correctness. For a document that scans without error and a
    lock file that resolves to a set with an entry for every managed release,
    [mergeLockedDependencies] returns a document, without error, whose
    releases are those of the input with the version of every managed release
    replaced by the version of its entry; the files are untouched. *)
Theorem mergeLockedDependencies_complete_lock :
  forall (E : Externals) (st : loc) (w w0 : world) (filename : string)
         (u : UnresolvedDependencies) (s : HelmState) (rs : list ReleaseSpec.t)
         (c : string) (rd : ResolvedDependencies),
    getUnresolvedDependenciess st w = (Returned (filename, Some u, None), w0) ->
    structs w !! st = Some s ->
    arrays w !! Releases s = Some rs ->
    deny_read w !! (filename ++ ".lock") = None ->
    files w !! (filename ++ ".lock") = Some c ->
    resolveContent c = (Some rd, None) ->
    (forall r alias chart url,
       r ∈ rs ->
       resolveRemoteChart (ReleaseSpec.Chart r) = Returned (alias, chart, true) ->
       buildRepoToURL (Repositories s) !! alias = Some url ->
       is_Some (rdeps rd !! chart)) ->
    exists doc w',
      mergeLockedDependencies st w = (Returned (Some doc, None), w')
      /\ structs w' !! doc = Some s
      /\ arrays w' !! Releases s
         = Some (map (mergedRelease (buildRepoToURL (Repositories s)) rd) rs)
      /\ files w' = files w.
Proof.
  intros E st w w0 filename u s rs c rd Hscan Hst Harr Hdeny Hfile Hres Hentries.
  destruct (getUnresolvedDependenciess_ok _ _ _ _ _ Hscan) as (-> & s' & Hst' & Hloop & _).
  rewrite Hst in Hst'. injection Hst' as <-. rewrite Harr in Hloop. simpl in Hloop.
  set (repoToURL := buildRepoToURL (Repositories s)) in *.
  pose proof (scanReleases_ok_classified _ _ _ _ Hloop) as Hall.
  pose proof (classified_with_entries repoToURL rd rs Hall Hentries) as Hok.
  unfold mergeLockedDependencies. unfold bind at 1. rewrite Hscan.
  destruct (Nat.eqb (size (deps u)) 0) eqn:Hsize.
  - exists st, w. split; [done|]. split; [done|]. split; [|done].
    rewrite Harr. f_equal. rewrite <- (map_id rs) at 1. apply map_ext_in.
    intros r Hin. apply list_elem_of_In in Hin. symmetry. apply mergedRelease_skipped.
    apply Nat.eqb_eq, map_size_empty_inv in Hsize.
    rewrite Forall_forall in Hall. destruct (Hall r Hin) as [[[chart url]|] Hm]; [|done].
    destruct (scanReleases_ok_contains _ _ _ _ Hloop) as [_ Hcontains].
    destruct (Hcontains r chart url Hin Hm) as [x Hx]. by rewrite Hsize in Hx.
  - pose proof (Resolve_default_content_ok filename u w c rd Hdeny Hfile Hres) as HResolve.
    rewrite (resolveDependencies_run st _ u (Some rd) w w s rs HResolve Hst Harr).
    fold repoToURL. rewrite (mergeList_all_entries repoToURL rd rs Hok).
    eexists _, _. split; [reflexivity|]. cbn [structs arrays files fst snd].
    split; [apply lookup_insert_eq|]. split; [apply lookup_insert_eq|done].
Qed.

Lemma mergeLockedDependencies_complete_lock_witness :
  let w := Demo.worldOf {[ "helmfile.lock" := Demo.lockOfBoth ]} Demo.releases in
  exists doc w',
    @mergeLockedDependencies Demo.externals 1%positive w = (Returned (Some doc, None), w')
    /\ structs w' !! doc = Some Demo.document
    /\ arrays w' !! Releases Demo.document
       = Some (map (@mergedRelease Demo.externals
                      (buildRepoToURL (Repositories Demo.document)) Demo.resolvedBoth)
                 Demo.releases)
    /\ files w' = files w.
Proof.
  intros w.
  apply (mergeLockedDependencies_complete_lock Demo.externals 1%positive w w "helmfile"
           Demo.scanned Demo.document Demo.releases Demo.lockOfBoth Demo.resolvedBoth).
  - vm_compute. reflexivity.
  - vm_compute. reflexivity.
  - vm_compute. reflexivity.
  - vm_compute. reflexivity.
  - vm_compute. reflexivity.
  - vm_compute. reflexivity.
  - intros r alias chart url Hin Hremote Hurl.
    unfold Demo.releases in Hin.
    apply elem_of_cons in Hin as [->|Hin]; [|apply elem_of_cons in Hin as [->|Hin]];
      [| |apply list_elem_of_singleton in Hin as ->].
    + injection Hremote as <- <-. eexists. vm_compute. reflexivity.
    + injection Hremote as <- <-. eexists. vm_compute. reflexivity.
    + discriminate Hremote.
Defined.

(** ** What [Update] hands to the updater and what it returns *)

Section UpdateRuns.

Context `{E : Externals}.

Lemma UpdateStage_no_faults_files (name wd : string) (unresolved : UnresolvedDependencies)
    (w : world) (content : bytes) :
  deny_read w = ∅ ->
  deny_write w = ∅ ->
  yaml_Marshal (ToChartRequirements unresolved).1 = (content, None) ->
  UpdateStage (NewChartDependencyManager name) wd unresolved w
  = (Returned None, set_files (stagedFiles name wd content (files w)) w).
Proof.
  intros Hr Hw Hmarshal. unfold UpdateStage, stagedFiles.
  unfold bind at 1. rewrite writeBytes_default, Hw, lookup_empty, Hmarshal.
  unfold bind at 1. rewrite writeBytes_default. cbn [deny_write set_files].
  rewrite Hw, lookup_empty.
  unfold bind at 1. rewrite readBytes_default. cbn [deny_read set_files files].
  rewrite Hr, lookup_empty. unfold lockFileName. cbn [Name NewChartDependencyManager].
  cbn [default from_option id].
  destruct (_ !! (name ++ ".lock")) as [c|].
  - cbn [negb IsNotExist]. rewrite writeBytes_default. cbn [deny_write set_files].
    by rewrite Hw, lookup_empty.
  - done.
Qed.

Lemma Update_from_updater (name wd : string) (shell : DependencyUpdater)
    (unresolved : UnresolvedDependencies) (w : world) (content : bytes) :
  deny_read w = ∅ ->
  deny_write w = ∅ ->
  yaml_Marshal (ToChartRequirements unresolved).1 = (content, None) ->
  Update (NewChartDependencyManager name) shell wd unresolved w
  = UpdateFromUpdater (NewChartDependencyManager name) shell wd unresolved
      (set_files (stagedFiles name wd content (files w)) w).
Proof.
  intros Hr Hw Hmarshal. rewrite Update_phases. unfold bind at 1.
  by rewrite (UpdateStage_no_faults_files name wd unresolved w content Hr Hw Hmarshal).
Qed.

End UpdateRuns.

Lemma requirementsOf_ToChartRequirements (u : UnresolvedDependencies) :
  requirementsOf u (ToChartRequirements u).1.
Proof.
  split.
  - intros x. rewrite ToChartRequirements_list, list_elem_of_fmap. split.
    + intros ([n spec] & -> & Hin). apply elem_of_map_to_list in Hin. by exists n, spec.
    + intros (n & spec & Hin & ->). exists (n, spec). split; [done|].
      by apply elem_of_map_to_list.
  - rewrite ToChartRequirements_list, length_map. apply length_map_to_list.
Qed.

(** X11. What the updater is given. On a file system that does not fail,
    with a set whose requirements serialize in whatever order they are
    listed, and workspace paths that are distinct from one another and from
    the lock file, [Update] calls the updater on a world where [Chart.yaml]
    names the manager, [requirements.yaml] holds the serialization of a
    requirements document of the set (one defaulted spec per entry, the
    order left open), [requirements.lock] holds the content of the lock
    file when there is one and is left as it was otherwise, and every other
    file, the lock file among them, is as before. *)
Theorem Update_stages_workspace :
  forall (E : Externals) (name wd : string) (shell : DependencyUpdater)
         (unresolved : UnresolvedDependencies) (w : world),
    let m := NewChartDependencyManager name in
    let chart := filepath_Join wd "Chart.yaml" in
    let reqs := filepath_Join wd "requirements.yaml" in
    let wslock := filepath_Join wd "requirements.lock" in
    deny_read w = ∅ ->
    deny_write w = ∅ ->
    (forall r, requirementsOf unresolved r -> (yaml_Marshal r).2 = None) ->
    chart <> reqs -> chart <> wslock -> reqs <> wslock ->
    chart <> lockFileName m -> reqs <> lockFileName m ->
    exists (w0 : world) (r : ChartRequirements),
      Update m shell wd unresolved w = UpdateFromUpdater m shell wd unresolved w0
      /\ files w0 !! chart = Some ("name: " ++ name ++ nl)
      /\ requirementsOf unresolved r
      /\ files w0 !! reqs = Some (default EmptyString (yaml_Marshal r).1)
      /\ files w0 !! wslock
         = match files w !! lockFileName m with
           | Some c => Some c
           | None => files w !! wslock
           end
      /\ (forall p, p <> chart -> p <> reqs -> p <> wslock -> files w0 !! p = files w !! p)
      /\ files w0 !! lockFileName m = files w !! lockFileName m.
Proof.
  intros E name wd shell unresolved w m chart reqs wslock
         Hr Hw Hmarshal Hcr Hcl Hrl Hclock Hrlock.
  subst m.
  pose proof (requirementsOf_ToChartRequirements unresolved) as Hreqs.
  pose proof (Hmarshal _ Hreqs) as Hok.
  destruct (yaml_Marshal (ToChartRequirements unresolved).1) as [content merr] eqn:Hm.
  simpl in Hok. subst merr.
  exists (set_files (stagedFiles name wd content (files w)) w), (ToChartRequirements unresolved).1.
  split; [by apply Update_from_updater|].
  rewrite Hm. cbn [fst].
  unfold lockFileName in *. cbn [Name NewChartDependencyManager] in *.
  cbn [files set_files]. unfold stagedFiles. fold chart reqs wslock.
  rewrite (lookup_insert_ne _ reqs (name ++ ".lock")) by done.
  rewrite (lookup_insert_ne _ chart (name ++ ".lock")) by done.
  destruct (files w !! (name ++ ".lock")) as [c|] eqn:Hlock.
  - split; [|split; [done|split; [|split; [|split]]]].
    + rewrite lookup_insert_ne by done. rewrite lookup_insert_ne by done.
      apply lookup_insert_eq.
    + rewrite lookup_insert_ne by done. apply lookup_insert_eq.
    + apply lookup_insert_eq.
    + intros p Hp1 Hp2 Hp3. by rewrite !lookup_insert_ne.
    + destruct (decide (wslock = name ++ ".lock")) as [Heq|Hne].
      * rewrite Heq. by rewrite lookup_insert_eq.
      * by rewrite !lookup_insert_ne.
  - split; [|split; [done|split; [|split; [|split]]]].
    + rewrite lookup_insert_ne by done. apply lookup_insert_eq.
    + apply lookup_insert_eq.
    + by rewrite !lookup_insert_ne.
    + intros p Hp1 Hp2 Hp3. by rewrite !lookup_insert_ne.
    + by rewrite !lookup_insert_ne.
Qed.

Lemma Update_stages_workspace_witness :
  let w := Demo.worldOf {[ "helmfile.lock" := Demo.lockOfEnvoy ]} Demo.releases in
  let m := NewChartDependencyManager "helmfile" in
  exists (w0 : world) (r : ChartRequirements),
    @Update Demo.externals m (Demo.failingUpdater "stop") "/tmp/ws" Demo.scanned w
    = @UpdateFromUpdater Demo.externals m (Demo.failingUpdater "stop") "/tmp/ws"
        Demo.scanned w0
    /\ files w0 !! "/tmp/ws/Chart.yaml" = Some ("name: " ++ "helmfile" ++ nl)
    /\ requirementsOf Demo.scanned r
    /\ files w0 !! "/tmp/ws/requirements.yaml"
       = Some (default EmptyString (Demo.Marshal r).1)
    /\ files w0 !! "/tmp/ws/requirements.lock"
       = match files w !! lockFileName m with
         | Some c => Some c
         | None => files w !! "/tmp/ws/requirements.lock"
         end
    /\ (forall p, p <> "/tmp/ws/Chart.yaml" -> p <> "/tmp/ws/requirements.yaml" ->
                  p <> "/tmp/ws/requirements.lock" -> files w0 !! p = files w !! p)
    /\ files w0 !! lockFileName m = files w !! lockFileName m.
Proof.
  intros w m.
  apply (Update_stages_workspace Demo.externals "helmfile" "/tmp/ws"
           (Demo.failingUpdater "stop") Demo.scanned w).
  - reflexivity.
  - reflexivity.
  - intros r _. reflexivity.
  - vm_compute. discriminate.
  - vm_compute. discriminate.
  - vm_compute. discriminate.
  - vm_compute. discriminate.
  - vm_compute. discriminate.
Defined.

(** X12. What [Update] returns is what the lock file it has written resolves
    to. Take a run of [Update] in which the workspace is prepared without
    error, leaving the world [w0], and the call of the updater on [w0]
    returns without error, leaving the world [w1] with [c] as the lock of the
    workspace, readable, and the lock file writable and readable. [Update]
    ends in [w1] with [c] written to the lock file and returns the set, or
    the error, that [Resolve] makes of [c]; a [Resolve] run afterwards
    returns the same. *)
Theorem Update_returns_resolved_lock :
  forall (E : Externals) (name wd : string) (shell : DependencyUpdater)
         (unresolved : UnresolvedDependencies) (w w0 w1 : world) (c : string),
    let m := NewChartDependencyManager name in
    UpdateStage m wd unresolved w = (Returned None, w0) ->
    UpdateDeps shell wd w0 = (Returned None, w1) ->
    deny_read w1 !! filepath_Join wd "requirements.lock" = None ->
    files w1 !! filepath_Join wd "requirements.lock" = Some c ->
    deny_write w1 !! lockFileName m = None ->
    deny_read w1 !! lockFileName m = None ->
    exists w',
      Update m shell wd unresolved w = (Returned (resolveContent c), w')
      /\ w' = set_files (<[lockFileName m := c]> (files w1)) w1
      /\ files w' !! lockFileName m = Some c
      /\ exists flag,
           Resolve m unresolved w'
           = (Returned ((resolveContent c).1, flag, (resolveContent c).2), w').
Proof.
  intros E name wd shell unresolved w w0 w1 c m Hstage Hshell Hrout Hout Hwlock Hrlock.
  subst m. unfold lockFileName in *. cbn [Name NewChartDependencyManager] in *.
  rewrite (Update_run_commit _ shell wd unresolved w w0 w1 Hstage Hshell).
  rewrite (UpdateCommit_run name wd unresolved w1 c Hrout Hout Hwlock Hrlock).
  eexists. split; [reflexivity|]. split; [done|].
  cbn [files set_files]. split; [apply lookup_insert_eq|].
  apply Resolve_default_content; [done|]. cbn. apply lookup_insert_eq.
Qed.

Lemma Update_returns_resolved_lock_witness :
  let m := NewChartDependencyManager "helmfile" in
  let w := Demo.worldOf ∅ Demo.releases in
  let w0 := (@UpdateStage Demo.externals m "/tmp/ws" Demo.scanned w).2 in
  let w1 := (UpdateDeps (Demo.writingUpdater Demo.lockOfBoth) "/tmp/ws" w0).2 in
  exists w',
    @Update Demo.externals m (Demo.writingUpdater Demo.lockOfBoth) "/tmp/ws" Demo.scanned w
    = (Returned (@resolveContent Demo.externals Demo.lockOfBoth), w')
    /\ w' = set_files (<[lockFileName m := Demo.lockOfBoth]> (files w1)) w1
    /\ files w' !! lockFileName m = Some Demo.lockOfBoth
    /\ exists flag,
         @Resolve Demo.externals m Demo.scanned w'
         = (Returned ((@resolveContent Demo.externals Demo.lockOfBoth).1, flag,
                      (@resolveContent Demo.externals Demo.lockOfBoth).2), w').
Proof.
  intros m w w0 w1.
  apply (Update_returns_resolved_lock Demo.externals "helmfile" "/tmp/ws"
           (Demo.writingUpdater Demo.lockOfBoth) Demo.scanned w w0 w1 Demo.lockOfBoth).
  - vm_compute. reflexivity.
  - vm_compute. reflexivity.
  - vm_compute. reflexivity.
  - vm_compute. reflexivity.
  - vm_compute. reflexivity.
  - vm_compute. reflexivity.
Defined.

(** X13. Update, then merge. Take a run of [updateDependencies] in which the
    workspace is prepared without error, leaving the world [w0], and the call
    of the updater on [w0] returns without error, leaving the world [w1]
    with [c] as the lock of the workspace, readable, and the lock file
    writable and readable. When [c] resolves to a set, every chart reference
    of the document in [w1] is classified without panic and every managed
    release has an entry in the set, [updateDependencies] writes [c] to the
    lock file and returns a document whose releases carry the versions of
    their entries. *)
Theorem updateDependencies_merges_updater_output :
  forall (E : Externals) (st : loc) (shell : DependencyUpdater)
         (unresolved : UnresolvedDependencies) (filename wd : string)
         (w w0 w1 : world) (s : HelmState) (rs : list ReleaseSpec.t) (c : string)
         (rd : ResolvedDependencies),
    let m := NewChartDependencyManager filename in
    UpdateStage m wd unresolved w = (Returned None, w0) ->
    UpdateDeps shell wd w0 = (Returned None, w1) ->
    deny_read w1 !! filepath_Join wd "requirements.lock" = None ->
    files w1 !! filepath_Join wd "requirements.lock" = Some c ->
    deny_write w1 !! lockFileName m = None ->
    deny_read w1 !! lockFileName m = None ->
    resolveContent c = (Some rd, None) ->
    structs w1 !! st = Some s ->
    arrays w1 !! Releases s = Some rs ->
    Forall (fun r => exists x, resolveRemoteChart (ReleaseSpec.Chart r) = Returned x) rs ->
    (forall r alias chart url,
       r ∈ rs ->
       resolveRemoteChart (ReleaseSpec.Chart r) = Returned (alias, chart, true) ->
       buildRepoToURL (Repositories s) !! alias = Some url ->
       is_Some (rdeps rd !! chart)) ->
    exists updated w',
      updateDependencies st shell unresolved filename wd w
      = (Returned (Some updated, None), w')
      /\ files w' !! lockFileName m = Some c
      /\ structs w' !! updated = Some s
      /\ arrays w' !! Releases s
         = Some (map (mergedRelease (buildRepoToURL (Repositories s)) rd) rs).
Proof.
  intros E st shell unresolved filename wd w w0 w1 s rs c rd m
         Hstage Hshell Hrout Hout Hwlock Hrlock Hres Hst Harr Hall Hentries.
  subst m. unfold lockFileName in *. cbn [Name NewChartDependencyManager] in *.
  set (repoToURL := buildRepoToURL (Repositories s)) in *.
  unfold updateDependencies. unfold bind at 1.
  rewrite (Update_run_commit _ shell wd unresolved w w0 w1 Hstage Hshell).
  rewrite (UpdateCommit_run filename wd unresolved w1 c Hrout Hout Hwlock Hrlock), Hres.
  set (w3 := set_files _ w1).
  assert (HResolve : Resolve (NewChartDependencyManager filename) unresolved w3
                     = (Returned (Some rd, true, None), w3)).
  { apply (Resolve_default_content_ok filename unresolved w3 c rd);
      [done|by apply lookup_insert_eq|done]. }
  assert (Hst3 : structs w3 !! st = Some s) by done.
  assert (Harr3 : arrays w3 !! Releases s = Some rs) by done.
  rewrite (resolveDependencies_run st _ unresolved (Some rd) w3 w3 s rs HResolve Hst3 Harr3).
  fold repoToURL. rewrite (mergeList_all_entries repoToURL rd rs).
  - eexists _, _. split; [reflexivity|]. cbn [files structs arrays fst snd].
    split; [by apply lookup_insert_eq|]. split; apply lookup_insert_eq.
  - apply classified_with_entries; [|done].
    eapply Forall_impl; [exact Hall|]. intros r. apply managedChart_classified.
Qed.

Lemma updateDependencies_merges_updater_output_witness :
  let m := NewChartDependencyManager "helmfile" in
  let w := Demo.worldOf ∅ Demo.releases in
  let w0 := (@UpdateStage Demo.externals m "/tmp/ws" Demo.scanned w).2 in
  let w1 := (UpdateDeps (Demo.writingUpdater Demo.lockOfBoth) "/tmp/ws" w0).2 in
  exists updated w',
    @updateDependencies Demo.externals 1%positive (Demo.writingUpdater Demo.lockOfBoth)
      Demo.scanned "helmfile" "/tmp/ws" w
    = (Returned (Some updated, None), w')
    /\ files w' !! lockFileName m = Some Demo.lockOfBoth
    /\ structs w' !! updated = Some Demo.document
    /\ arrays w' !! Releases Demo.document
       = Some (map (@mergedRelease Demo.externals
                      (buildRepoToURL (Repositories Demo.document)) Demo.resolvedBoth)
                 Demo.releases).
Proof.
  intros m w w0 w1.
  apply (updateDependencies_merges_updater_output Demo.externals 1%positive
           (Demo.writingUpdater Demo.lockOfBoth) Demo.scanned "helmfile" "/tmp/ws"
           w w0 w1 Demo.document Demo.releases Demo.lockOfBoth Demo.resolvedBoth).
  - vm_compute. reflexivity.
  - vm_compute. reflexivity.
  - vm_compute. reflexivity.
  - vm_compute. reflexivity.
  - vm_compute. reflexivity.
  - vm_compute. reflexivity.
  - vm_compute. reflexivity.
  - vm_compute. reflexivity.
  - vm_compute. reflexivity.
  - unfold Demo.releases. repeat (apply Forall_cons; split; [eexists; vm_compute; reflexivity|]).
    apply Forall_nil_2.
  - intros r alias chart url Hin Hremote Hurl.
    unfold Demo.releases in Hin.
    apply elem_of_cons in Hin as [->|Hin]; [|apply elem_of_cons in Hin as [->|Hin]];
      [| |apply list_elem_of_singleton in Hin as ->].
    + injection Hremote as <- <-. eexists. vm_compute. reflexivity.
    + injection Hremote as <- <-. eexists. vm_compute. reflexivity.
    + discriminate Hremote.
Defined.

(** When a reference of the document does not classify, the update has
    committed the lock and merged the releases before it when the merge
    panics. *)
Example update_panics_after_commit :
  let w := Demo.worldOf ∅ [Demo.envoy; ReleaseSpec.mk "myrepo/a/b" EmptyString] in
  let run := @updateDependencies Demo.externals 1%positive
               (Demo.writingUpdater Demo.lockOfBoth) Demo.scanned "helmfile" "/tmp/ws" w in
  run.1 = Panicked (PanicMsg "unsupported format of chart name: myrepo/a/b")
  /\ files run.2 !! "helmfile.lock" = Some Demo.lockOfBoth
  /\ arrays run.2 !! 7%positive
     = Some [ReleaseSpec.mk "myrepo/envoy" "1.2.3"; ReleaseSpec.mk "myrepo/a/b" EmptyString].
Proof. vm_compute. done. Qed.

(** ** The temporary directory *)

Lemma DemoOS_RemoveAll_removes (d : string) (w : world) :
  d <> EmptyString ->
  exists w',
    DemoOS.RemoveAll d w = (Returned None, w')
    /\ forall p, underDir d p = true -> files w' !! p = None.
Proof.
  intros Hd. unfold DemoOS.RemoveAll.
  destruct (String.eqb_spec d EmptyString) as [|_]; [done|].
  eexists. split; [reflexivity|]. intros p Hp. cbn.
  apply map_lookup_filter_None. right. intros x _. simpl. by rewrite Hp.
Qed.

(** X14. For a document with managed releases: when the temporary directory
    cannot be made, [updateDependenciesInTempDir] returns the error
    "unable to create dir" and goes no further; when it is made, the
    outcome is that of [updateDependencies] in it, and the removal of the
    directory runs whether that outcome is a document, an error or a panic,
    so that with a removal that deletes what is under the directory no file
    of it is left. *)
Theorem updateDependenciesInTempDir_removes_workspace :
  forall (E : Externals) (R : Removal) (st : loc) (shell : DependencyUpdater)
         (tempDir : string -> string -> M (string * option error))
         (w w0 : world) (filename : string) (u : UnresolvedDependencies),
    getUnresolvedDependenciess st w = (Returned (filename, Some u, None), w0) ->
    size (deps u) <> 0 ->
    (forall d err w1,
       tempDir EmptyString EmptyString w = (Returned (d, Some err), w1) ->
       updateDependenciesInTempDir st shell tempDir w
       = (Returned (None, Some (unable_to_create_dir err)), w1))
    /\ (forall d w1,
          tempDir EmptyString EmptyString w = (Returned (d, None), w1) ->
          (forall w2, exists x w3,
             os_RemoveAll d w2 = (Returned x, w3)
             /\ forall p, underDir d p = true -> files w3 !! p = None) ->
          (updateDependenciesInTempDir st shell tempDir w).1
          = (updateDependencies st shell u filename d w1).1
          /\ forall p, underDir d p = true ->
                       files (updateDependenciesInTempDir st shell tempDir w).2 !! p = None).
Proof.
  intros E R st shell tempDir w w0 filename u Hscan Hsize.
  destruct (getUnresolvedDependenciess_ok _ _ _ _ _ Hscan) as (-> & _).
  apply Nat.eqb_neq in Hsize.
  split.
  - intros d err w1 Htemp. unfold updateDependenciesInTempDir.
    unfold bind at 1. rewrite Hscan, Hsize. unfold bind at 1. by rewrite Htemp.
  - intros d w1 Htemp Hremove.
    destruct (updateDependencies st shell u filename d w1) as [o w2] eqn:Hupd.
    destruct (Hremove w2) as (x & w3 & Hrm & Hgone).
    assert (Hrun : updateDependenciesInTempDir st shell tempDir w = (o, w3)).
    { unfold updateDependenciesInTempDir. unfold bind at 1. rewrite Hscan, Hsize.
      unfold bind at 1. rewrite Htemp. unfold defer. by rewrite Hupd, Hrm. }
    rewrite Hrun. by split.
Qed.

Lemma updateDependenciesInTempDir_removes_workspace_witness :
  let w := Demo.worldOf {[ "helmfile.lock" := Demo.lockOfEnvoy ]} Demo.releases in
  let run := @updateDependenciesInTempDir Demo.externals DemoOS.removal 1%positive
               (Demo.failingUpdater "helm dependency update failed")
               (DemoOS.tempDir "/tmp/ws") w in
  run.1 = (@updateDependencies Demo.externals 1%positive
             (Demo.failingUpdater "helm dependency update failed")
             Demo.scanned "helmfile" "/tmp/ws" w).1
  /\ forall p, underDir "/tmp/ws" p = true -> files run.2 !! p = None.
Proof.
  intros w run.
  apply (proj2 (updateDependenciesInTempDir_removes_workspace Demo.externals DemoOS.removal
                  1%positive (Demo.failingUpdater "helm dependency update failed")
                  (DemoOS.tempDir "/tmp/ws") w w "helmfile" Demo.scanned
                  ltac:(vm_compute; reflexivity) ltac:(vm_compute; discriminate))
               "/tmp/ws" w).
  - reflexivity.
  - intros w2. destruct (DemoOS_RemoveAll_removes "/tmp/ws" w2) as (w3 & Hrun & Hgone);
      [discriminate|]. by exists None, w3.
Defined.

Example temp_dir_removed_after_failure :
  let w := Demo.worldOf {[ "helmfile.lock" := Demo.lockOfEnvoy ]} Demo.releases in
  let run := @updateDependenciesInTempDir Demo.externals DemoOS.removal 1%positive
               (Demo.failingUpdater "helm dependency update failed")
               (DemoOS.tempDir "/tmp/ws") w in
  run.1 = Returned (None, Some (Errorf "unable to resolve 2 deps: helm dependency update failed"))
  /\ files run.2 = files w.
Proof. vm_compute. done. Qed.

(** ** The form of a remote reference *)

Section SplitFacts.

Lemma Split_nonempty (s : string) (sep : ascii) : Split s sep <> [].
Proof.
  destruct s as [|c s]; simpl; [done|].
  destruct (Ascii.eqb c sep); [done|]. by destruct (Split s sep).
Qed.

(** Joining the pieces with the separator gives the string back. *)
Lemma Split_concat (s : string) (sep : ascii) :
  String.concat (String sep EmptyString) (Split s sep) = s.
Proof.
  induction s as [|c s IH]; [done|]. simpl.
  destruct (Ascii.eqb_spec c sep) as [->|Hne].
  - pose proof (Split_nonempty s sep) as Hne.
    destruct (Split s sep) as [|p ps]; [done|]. simpl in *. by rewrite IH.
  - destruct (Split s sep) as [|p ps] eqn:Hsplit.
    + by apply Split_nonempty in Hsplit.
    + simpl in *. destruct ps; simpl in *; by rewrite <- IH.
Qed.

(** No piece holds the separator. *)
Lemma Split_pieces (s : string) (sep : ascii) :
  Forall (fun p => containsByte sep p = false) (Split s sep).
Proof.
  induction s as [|c s IH]; simpl; [by repeat constructor|].
  destruct (Ascii.eqb_spec c sep) as [->|Hne].
  - by constructor.
  - destruct (Split s sep) as [|p ps]; simpl.
    + repeat constructor. simpl. by apply Ascii.eqb_neq in Hne as ->.
    + apply Forall_cons in IH as [Hp Hps]. constructor; [|done].
      simpl. apply Ascii.eqb_neq in Hne as ->. done.
Qed.

Lemma Split_without_separator (s : string) (sep : ascii) :
  containsByte sep s = false -> Split s sep = [s].
Proof.
  induction s as [|c s IH]; [done|]. simpl.
  intros Hc. apply orb_false_elim in Hc as [Hc Hs]. rewrite Hc, (IH Hs). done.
Qed.

Lemma Split_two (a b : string) (sep : ascii) :
  containsByte sep a = false ->
  containsByte sep b = false ->
  Split (a ++ String sep b) sep = [a; b].
Proof.
  intros Ha Hb. induction a as [|c a IH]; simpl.
  - by rewrite Ascii.eqb_refl, Split_without_separator.
  - simpl in Ha. apply orb_false_elim in Ha as [Hc Ha]. by rewrite Hc, (IH Ha).
Qed.

End SplitFacts.

(** X15. A reference that is not local is classified as remote, without a
    panic, exactly when it is an alias, a slash and a chart name, neither of
    which holds a slash; the classification returns that alias and that
    name. *)
Theorem resolveRemoteChart_remote_form :
  forall (E : Externals) (repoAndChart repo chart : string),
    isLocalChart repoAndChart = false ->
    (resolveRemoteChart repoAndChart = Returned (repo, chart, true) <->
     repoAndChart = repo ++ "/" ++ chart
     /\ containsByte "/" repo = false
     /\ containsByte "/" chart = false).
Proof.
  intros E s repo chart Hlocal. unfold resolveRemoteChart. rewrite Hlocal. split.
  - pose proof (Split_concat s "/") as Hconcat.
    pose proof (Split_pieces s "/") as Hpieces.
    destruct (Split s "/") as [|a [|b [|c ps]]]; simpl; try done.
    intros [= <- <-]. simpl in Hconcat.
    apply Forall_cons in Hpieces as [Ha Hpieces].
    apply Forall_cons in Hpieces as [Hb _]. done.
  - intros (-> & Hrepo & Hchart).
    change (repo ++ "/" ++ chart) with (repo ++ String "/" chart).
    by rewrite (Split_two repo chart "/").
Qed.

Lemma resolveRemoteChart_remote_form_witness :
  @resolveRemoteChart Demo.externals "stable/envoy" = Returned ("stable", "envoy", true) <->
  "stable/envoy" = "stable" ++ "/" ++ "envoy"
  /\ containsByte "/" "stable" = false
  /\ containsByte "/" "envoy" = false.
Proof.
  apply (resolveRemoteChart_remote_form Demo.externals "stable/envoy" "stable" "envoy").
  reflexivity.
Defined.

(** ** The map from alias to URL *)

Lemma foldl_repoToURL (repos : list RepositorySpec.t) (m : gmap string string)
    (alias : string) :
  foldl (fun repoToURL r => <[RepositorySpec.Name r := RepositorySpec.URL r]> repoToURL)
        m repos !! alias
  = match last (filter (fun r => RepositorySpec.Name r = alias) repos) with
    | Some r => Some (RepositorySpec.URL r)
    | None => m !! alias
    end.
Proof.
  revert m. induction repos as [|r repos IH]; intros m; [done|].
  simpl. rewrite IH. rewrite filter_cons.
  destruct (decide (RepositorySpec.Name r = alias)) as [Heq|Hne].
  - rewrite last_cons.
    destruct (last (filter _ repos)); [done|]. by rewrite <- Heq, lookup_insert_eq.
  - destruct (last (filter _ repos)); [done|]. by rewrite lookup_insert_ne.
Qed.

(** X16. The alias of a release is looked up among the repositories of the
    document; when several repositories have the same name, the URL of the
    last one is used, and an alias that no repository has is not mapped. *)
Theorem buildRepoToURL_last_wins :
  forall (repos : list RepositorySpec.t) (alias : string),
    buildRepoToURL repos !! alias
    = RepositorySpec.URL <$> last (filter (fun r => RepositorySpec.Name r = alias) repos).
Proof.
  intros repos alias. unfold buildRepoToURL. rewrite foldl_repoToURL.
  destruct (last _); [done|]. apply lookup_empty.
Qed.

Example buildRepoToURL_duplicate_alias :
  buildRepoToURL [RepositorySpec.mk "stable" "https://a.example";
                  RepositorySpec.mk "incubator" "https://b.example";
                  RepositorySpec.mk "stable" "https://c.example"] !! "stable"
  = Some "https://c.example".
Proof. vm_compute. reflexivity. Qed.

(** ** The name of the lock file *)

Section TrimSuffixFacts.

Lemma length_append (a b : string) :
  String.length (a ++ b) = String.length a + String.length b.
Proof. induction a as [|c a IH]; simpl; [done|]. by rewrite IH. Qed.

Lemma append_assoc (a b c : string) : a ++ (b ++ c) = (a ++ b) ++ c.
Proof.
  induction a as [|x a IH]; [done|].
  change (String x (a ++ (b ++ c)) = String x ((a ++ b) ++ c)). by rewrite IH.
Qed.

Lemma TrimSuffix_self (suffix : string) : TrimSuffix suffix suffix = EmptyString.
Proof. destruct suffix; simpl; [done|]. by rewrite Ascii.eqb_refl, String.eqb_refl. Qed.

(** A string that ends with the suffix loses it. *)
Lemma TrimSuffix_app (p suffix : string) : TrimSuffix (p ++ suffix) suffix = p.
Proof.
  induction p as [|c p IH]; [apply TrimSuffix_self|].
  change (String c p ++ suffix) with (String c (p ++ suffix)).
  cbn [TrimSuffix]. rewrite IH.
  destruct (String.eqb_spec (String c (p ++ suffix)) suffix) as [Heq|]; [|done].
  apply (f_equal String.length) in Heq. simpl in Heq. rewrite length_append in Heq. lia.
Qed.

(** A string that does not end with the suffix is left as it is. *)
Lemma TrimSuffix_no_suffix (s suffix : string) :
  (forall p, s <> p ++ suffix) -> TrimSuffix s suffix = s.
Proof.
  induction s as [|c s IH]; intros Hno.
  - by destruct suffix.
  - cbn [TrimSuffix].
    destruct (String.eqb_spec (String c s) suffix) as [Heq|_].
    + by destruct (Hno EmptyString).
    + rewrite IH; [done|]. intros p ->. by apply (Hno (String c p)).
Qed.

(** Of two strings that end in the same way, the shorter ending is the end
    of the longer one. *)
Lemma append_suffix (a b s1 s2 : string) :
  a ++ s1 = b ++ s2 ->
  String.length s1 <= String.length s2 ->
  exists k, s2 = k ++ s1.
Proof.
  revert b. induction a as [|c a IH]; intros b Heq Hlen.
  - change (EmptyString ++ s1) with s1 in Heq. subst s1. rewrite length_append in Hlen.
    destruct b; [by exists EmptyString|]. simpl in Hlen. lia.
  - destruct b as [|c' b].
    + change (EmptyString ++ s2) with s2 in Heq. subst s2. by exists (String c a).
    + change (String c (a ++ s1) = String c' (b ++ s2)) in Heq.
      injection Heq as _ Heq. by apply (IH b).
Qed.

Lemma yaml_no_gotmpl (stem p : string) : stem ++ ".yaml" <> p ++ ".gotmpl".
Proof.
  intros Heq. apply append_suffix in Heq as [k Hk]; [|simpl; lia].
  destruct k as [|a [|b [|c k]]]; try discriminate.
  apply (f_equal String.length) in Hk. simpl in Hk. rewrite length_append in Hk.
  simpl in Hk. lia.
Qed.

Lemma yml_no_gotmpl (stem p : string) : stem ++ ".yml" <> p ++ ".gotmpl".
Proof.
  intros Heq. apply append_suffix in Heq as [k Hk]; [|simpl; lia].
  destruct k as [|a [|b [|c [|d k]]]]; try discriminate.
  apply (f_equal String.length) in Hk. simpl in Hk. rewrite length_append in Hk.
  simpl in Hk. lia.
Qed.

Lemma yml_no_yaml (stem p : string) : stem ++ ".yml" <> p ++ ".yaml".
Proof.
  intros Heq. apply append_suffix in Heq as [k Hk]; [|simpl; lia].
  destruct k as [|a [|b k]]; try discriminate.
  apply (f_equal String.length) in Hk. simpl in Hk. rewrite length_append in Hk.
  simpl in Hk. lia.
Qed.

End TrimSuffixFacts.

(** X17. Documents named after the same stem share a lock file. When the base
    name of the document is a stem followed by [.yaml], [.yml], [.gotmpl],
    [.yaml.gotmpl] or [.yml.gotmpl] and the stem ends with none of [.gotmpl],
    [.yaml] and [.yml], the scan returns the stem as the name, and the lock
    file of the manager made from it is the stem followed by [.lock]. *)
Theorem lock_name_of_document :
  forall (E : Externals) (st : loc) (w w0 : world) (filename : string)
         (u : UnresolvedDependencies) (s : HelmState) (stem ext : string),
    getUnresolvedDependenciess st w = (Returned (filename, Some u, None), w0) ->
    structs w !! st = Some s ->
    filepath_Base (FilePath s) = stem ++ ext ->
    ext ∈ [".yaml"; ".yml"; ".gotmpl"; ".yaml.gotmpl"; ".yml.gotmpl"] ->
    (forall suffix p, suffix ∈ [".gotmpl"; ".yaml"; ".yml"] -> stem <> p ++ suffix) ->
    filename = stem
    /\ lockFileName (NewChartDependencyManager filename) = stem ++ ".lock".
Proof.
  intros E st w w0 filename u s stem ext Hscan Hst Hbase Hext Hstem.
  destruct (getUnresolvedDependenciess_ok _ _ _ _ _ Hscan) as (_ & s' & Hst' & _ & Hname).
  rewrite Hst in Hst'. injection Hst' as <-. rewrite Hbase in Hname.
  assert (Hyaml : TrimSuffix stem ".yaml" = stem).
  { apply TrimSuffix_no_suffix. intros p. apply Hstem. by repeat constructor. }
  assert (Hyml : TrimSuffix stem ".yml" = stem).
  { apply TrimSuffix_no_suffix. intros p. apply Hstem. by repeat constructor. }
  assert (filename = stem) as ->; [|done].
  rewrite Hname. clear Hname Hscan.
  repeat (apply elem_of_cons in Hext as [->|Hext]); [| | | | |by apply elem_of_nil in Hext].
  - rewrite (TrimSuffix_no_suffix _ ".gotmpl") by apply yaml_no_gotmpl.
    by rewrite TrimSuffix_app.
  - rewrite (TrimSuffix_no_suffix _ ".gotmpl") by apply yml_no_gotmpl.
    rewrite (TrimSuffix_no_suffix _ ".yaml") by apply yml_no_yaml.
    by rewrite TrimSuffix_app.
  - rewrite TrimSuffix_app. by rewrite Hyaml.
  - change (stem ++ ".yaml.gotmpl") with (stem ++ (".yaml" ++ ".gotmpl")).
    rewrite append_assoc, TrimSuffix_app, TrimSuffix_app. done.
  - change (stem ++ ".yml.gotmpl") with (stem ++ (".yml" ++ ".gotmpl")).
    rewrite append_assoc, TrimSuffix_app.
    rewrite (TrimSuffix_no_suffix _ ".yaml") by apply yml_no_yaml.
    by rewrite TrimSuffix_app.
Qed.

Lemma lock_name_of_document_witness :
  let w := Demo.worldOf ∅ Demo.releases in
  "helmfile" = "helmfile"
  /\ lockFileName (NewChartDependencyManager "helmfile") = "helmfile" ++ ".lock".
Proof.
  intros w.
  apply (lock_name_of_document Demo.externals 1%positive w w "helmfile" Demo.scanned
           Demo.document "helmfile" ".yaml").
  - vm_compute. reflexivity.
  - vm_compute. reflexivity.
  - vm_compute. reflexivity.
  - by repeat constructor.
  - intros suffix p Hin Heq.
    apply (f_equal (fun s => String.eqb (TrimSuffix s suffix) s)) in Heq.
    rewrite TrimSuffix_app in Heq.
    repeat (apply elem_of_cons in Hin as [->|Hin]); [| | |by apply elem_of_nil in Hin].
    + vm_compute in Heq. symmetry in Heq. apply String.eqb_eq in Heq.
      apply (f_equal String.length) in Heq. rewrite length_append in Heq. simpl in Heq. lia.
    + vm_compute in Heq. symmetry in Heq. apply String.eqb_eq in Heq.
      apply (f_equal String.length) in Heq. rewrite length_append in Heq. simpl in Heq. lia.
    + vm_compute in Heq. symmetry in Heq. apply String.eqb_eq in Heq.
      apply (f_equal String.length) in Heq. rewrite length_append in Heq. simpl in Heq. lia.
Defined.

(** ** A lock file that cannot be used *)

(** X18. For a document with managed releases, a lock file that cannot be
    read for another reason than its absence, or whose content does not
    resolve to a set, makes [mergeLockedDependencies] return no document and
    the error "unable to resolve N deps: " followed by the cause, N being the
    number of managed charts; the world is left as it is. *)
Theorem mergeLockedDependencies_unusable_lock :
  forall (E : Externals) (st : loc) (w w0 : world) (filename : string)
         (u : UnresolvedDependencies),
    getUnresolvedDependenciess st w = (Returned (filename, Some u, None), w0) ->
    size (deps u) <> 0 ->
    (forall errno,
       deny_read w !! (filename ++ ".lock") = Some errno ->
       errno <> ENOENT ->
       mergeLockedDependencies st w
       = (Returned (None, Some (unable_to_resolve u
                                  (PathError "open" (filename ++ ".lock") errno))), w))
    /\ (forall c err,
          deny_read w !! (filename ++ ".lock") = None ->
          files w !! (filename ++ ".lock") = Some c ->
          resolveContent c = (None, Some err) ->
          mergeLockedDependencies st w
          = (Returned (None, Some (unable_to_resolve u err)), w)).
Proof.
  intros E st w w0 filename u Hscan Hsize.
  destruct (getUnresolvedDependenciess_ok _ _ _ _ _ Hscan) as (-> & _).
  apply Nat.eqb_neq in Hsize. split.
  - intros errno Hdeny Hne.
    unfold mergeLockedDependencies. unfold bind at 1. rewrite Hscan, Hsize.
    unfold resolveDependencies, Resolve. unfold bind at 1. unfold bind at 1.
    rewrite readBytes_default. unfold lockFileName. cbn [Name NewChartDependencyManager].
    rewrite Hdeny. by destruct errno.
  - intros c err Hdeny Hfile Hres.
    unfold mergeLockedDependencies. unfold bind at 1. rewrite Hscan, Hsize.
    unfold resolveDependencies. unfold bind at 1.
    destruct (Resolve_default_content filename u w c Hdeny Hfile) as [flag ->].
    by rewrite Hres.
Qed.

Lemma mergeLockedDependencies_unusable_lock_witness :
  let w := Demo.worldOf {[ "helmfile.lock" := "garbage" ]} Demo.releases in
  @mergeLockedDependencies Demo.externals 1%positive w
  = (Returned (None, Some (unable_to_resolve Demo.scanned
                             (Errorf "yaml: cannot unmarshal garbage"))), w).
Proof.
  intros w.
  apply (proj2 (mergeLockedDependencies_unusable_lock Demo.externals 1%positive w w
                  "helmfile" Demo.scanned
                  ltac:(vm_compute; reflexivity) ltac:(vm_compute; discriminate))
               "garbage").
  - vm_compute. reflexivity.
  - vm_compute. reflexivity.
  - vm_compute. reflexivity.
Defined.

Example merge_unreadable_lock_message :
  let w := mkWorld {[ "helmfile.lock" := Demo.lockOfBoth ]} {[ "helmfile.lock" := EACCES ]} ∅
             {[ 1%positive := Demo.document ]} {[ 7%positive := Demo.releases ]} in
  (@mergeLockedDependencies Demo.externals 1%positive w).1
  = Returned (None, Some (Errorf
      "unable to resolve 2 deps: open helmfile.lock: permission denied")).
Proof. vm_compute. reflexivity. Qed.

(** X19. A lock file that cannot be read for another reason than its absence
    stops [Update] before the updater is called: whatever the updater,
    [Update] returns the error of the read, and the lock file is as it
    was. *)
Theorem Update_unreadable_lock_aborts :
  forall (E : Externals) (name wd : string) (shell : DependencyUpdater)
         (unresolved : UnresolvedDependencies) (w : world) (errno : Errno),
    let m := NewChartDependencyManager name in
    deny_write w = ∅ ->
    (yaml_Marshal (ToChartRequirements unresolved).1).2 = None ->
    deny_read w !! lockFileName m = Some errno ->
    errno <> ENOENT ->
    filepath_Join wd "Chart.yaml" <> lockFileName m ->
    filepath_Join wd "requirements.yaml" <> lockFileName m ->
    exists w',
      Update m shell wd unresolved w
      = (Returned (None, Some (PathError "open" (lockFileName m) errno)), w')
      /\ files w' !! lockFileName m = files w !! lockFileName m
      /\ forall shell', Update m shell' wd unresolved w = Update m shell wd unresolved w.
Proof.
  intros E name wd shell unresolved w errno m Hw Hmarshal Hdeny Hne Hchart Hreqs.
  subst m.
  assert (Hrun : forall sh,
            Update (NewChartDependencyManager name) sh wd unresolved w
            = (Returned (None, Some (PathError "open"
                                       (lockFileName (NewChartDependencyManager name)) errno)),
               set_files
                 (<[filepath_Join wd "requirements.yaml"
                    := default EmptyString (yaml_Marshal (ToChartRequirements unresolved).1).1]>
                    (<[filepath_Join wd "Chart.yaml" := "name: " ++ name ++ nl]> (files w)))
                 w)).
  { intros sh. unfold Update.
    unfold bind at 1. rewrite writeBytes_default, Hw, lookup_empty.
    destruct (yaml_Marshal _) as [content merr]. simpl in Hmarshal. subst merr.
    unfold bind at 1. rewrite writeBytes_default. cbn [deny_write set_files].
    rewrite Hw, lookup_empty.
    unfold bind at 1. rewrite readBytes_default. cbn [deny_read set_files].
    rewrite Hdeny. by destruct errno. }
  eexists. split; [apply Hrun|]. split.
  - cbn. by rewrite !lookup_insert_ne.
  - intros shell'. by rewrite !Hrun.
Qed.

Lemma Update_unreadable_lock_aborts_witness :
  let w := mkWorld {[ "helmfile.lock" := Demo.lockOfBoth ]} {[ "helmfile.lock" := EACCES ]} ∅
             {[ 1%positive := Demo.document ]} {[ 7%positive := Demo.releases ]} in
  let m := NewChartDependencyManager "helmfile" in
  exists w',
    @Update Demo.externals m (Demo.writingUpdater "garbage") "/tmp/ws" Demo.scanned w
    = (Returned (None, Some (PathError "open" (lockFileName m) EACCES)), w')
    /\ files w' !! lockFileName m = files w !! lockFileName m
    /\ forall shell',
         @Update Demo.externals m shell' "/tmp/ws" Demo.scanned w
         = @Update Demo.externals m (Demo.writingUpdater "garbage") "/tmp/ws" Demo.scanned w.
Proof.
  intros w m.
  apply (Update_unreadable_lock_aborts Demo.externals "helmfile" "/tmp/ws"
           (Demo.writingUpdater "garbage") Demo.scanned w EACCES).
  - reflexivity.
  - reflexivity.
  - vm_compute. reflexivity.
  - discriminate.
  - vm_compute. discriminate.
  - vm_compute. discriminate.
Defined.
